(** * Partner payout approval workflow of the flight-booking admin backend

  A shallow embedding of [AdminService.approvePayout],
  [AdminService.rejectPayout], the two e-mail helpers they call and the
  controller's [approvePayout] handler, together with the properties the
  specification states about them.

  Layout:
  - [JS]: the ECMAScript built-ins the code relies on ([parseFloat],
    [Number.prototype.toFixed], truthiness of numbers), over IEEE-754
    binary64 numbers (Rocq's primitive floats);
  - [Supabase]: the two tables, the queries the service issues and the
    store's reaction to them;
  - [Async]: the effects of an [async] function as a finite tree, the
    world the effects act on (tables, failing requests, the e-mail
    service, clock, console), sequential and interleaved execution;
  - [AdminService], [AdminController]: the code;
  - [Ledger]: the vocabulary of the statements and the example data;
  - facts about the built-ins, binary64 arithmetic, the store and
    printing;
  - the properties of the specification, each with an instance on
    concrete data;
  - [Std], [Node], [Admin], [Controller], [Terms]: the service's other
    operations on partners, users, refunds, promo codes, bookings and the
    listing of payouts, with the handlers that call them, over a store
    that answers from a script; their properties come last. *)

From Stdlib Require Import ZArith Lia Bool List Ascii String Floats DecimalString.
From stdpp Require Import base option gmap strings.

Set Warnings "-inexact-float".
Local Open Scope Z_scope.

(* ===================================================================== *)
(** ** ECMAScript built-ins *)
(* ===================================================================== *)

Module JS.

(** The values a column of a fetched row may hold. *)
Inductive value : Type :=
| Undefined
| Null
| Bool (b : bool)
| Num (x : float)
| Str (s : string).

(** An [Error] object: its [name] and its [message]. *)
Record error : Type := Err { name : string; message : string }.

(** [new Error(msg)] *)
Definition Error (msg : string) : error := Err "Error" msg.

(** Reading an identifier that no scope binds. *)
Definition ReferenceError (ident : string) : error :=
  Err "ReferenceError" (ident +:+ " is not defined").

(** *** Rounding a positive rational to binary64

    [round_ratio n d] is the binary64 number nearest to [n/d] (ties to
    even).  The quotient is computed with at least 66 significant bits and
    a sticky bit below them, then rounded once by [binary_normalize]. *)
Definition round_ratio (n d : positive) : spec_float :=
  let l := Z.log2 (Zpos n) - Z.log2 (Zpos d) in
  let s := 66 - l in
  let '(num, den) :=
    if 0 <=? s then (Z.shiftl (Zpos n) s, Zpos d)
    else (Zpos n, Z.shiftl (Zpos d) (- s)) in
  let q := num / den in
  let r := num mod den in
  let m := 2 * q + (if r =? 0 then 0 else 1) in
  binary_normalize prec emax m (- s - 1) false.

(** The number denoted by [mant * 10 ^ e10], with the sign [sign]. *)
Definition decimal_value (sign : bool) (mant e10 : Z) : spec_float :=
  match mant with
  | Zpos m =>
      let r := if 0 <=? e10
               then round_ratio (m * Z.to_pos (10 ^ e10)) 1
               else round_ratio m (Z.to_pos (10 ^ (- e10))) in
      if sign then SFopp r else r
  | _ => S754_zero sign
  end.

(** *** [parseFloat] *)

Definition digit_of (c : ascii) : option Z :=
  let n := Z.of_nat (nat_of_ascii c) in
  if (48 <=? n) && (n <=? 57) then Some (n - 48) else None.

(** DecimalDigits: the longest run of digits at the head of [s], folded
    into [acc]; returns the number, how many digits were read, the rest. *)
Fixpoint scan_digits (acc cnt : Z) (s : string) : Z * Z * string :=
  match s with
  | String c s' =>
      match digit_of c with
      | Some d => scan_digits (10 * acc + d) (cnt + 1) s'
      | None => (acc, cnt, s)
      end
  | EmptyString => (acc, cnt, s)
  end.

(** ExponentPart, when [s] starts with one; [0] otherwise. *)
Definition scan_exponent (s : string) : Z :=
  match s with
  | String c s' =>
      if (Ascii.eqb c "e" || Ascii.eqb c "E")%bool then
        let '(neg, s'') :=
          match s' with
          | String "+" t => (false, t)
          | String "-" t => (true, t)
          | _ => (false, s')
          end in
        let '(v, n, _) := scan_digits 0 0 s'' in
        if n =? 0 then 0 else if neg then - v else v
      else 0
  | EmptyString => 0
  end.

(** The longest prefix of [s] that is a StrUnsignedDecimalLiteral, as a
    number; NaN when there is none. *)
Definition parse_unsigned (sign : bool) (s : string) : spec_float :=
  if String.prefix "Infinity" s then S754_infinity sign
  else
    let '(ip, ni, r1) := scan_digits 0 0 s in
    match r1 with
    | String "." r2 =>
        let '(m, nf, r3) := scan_digits ip 0 r2 in
        if ni + nf =? 0 then S754_nan
        else decimal_value sign m (scan_exponent r3 - nf)
    | _ =>
        if ni =? 0 then S754_nan
        else decimal_value sign ip (scan_exponent r1)
    end.

(** StrWhiteSpaceChar, in a text held as its UTF-8 bytes.  The characters
    of one byte: tab, line feed, vertical tab, form feed, carriage return
    and space. *)
Definition is_space (c : ascii) : bool :=
  let n := Z.of_nat (nat_of_ascii c) in
  ((9 <=? n) && (n <=? 13) || (n =? 32))%bool.

(** U+00A0, two bytes. *)
Definition nbsp (c1 c2 : ascii) : bool :=
  ((Z.of_nat (nat_of_ascii c1) =? 194) && (Z.of_nat (nat_of_ascii c2) =? 160))%bool.

(** The characters of three bytes: U+1680, U+2000 to U+200A, U+2028,
    U+2029, U+202F, U+205F, U+3000 and U+FEFF. *)
Definition wide_space (c1 c2 c3 : ascii) : bool :=
  let a := Z.of_nat (nat_of_ascii c1) in
  let b := Z.of_nat (nat_of_ascii c2) in
  let c := Z.of_nat (nat_of_ascii c3) in
  ((a =? 225) && (b =? 154) && (c =? 128)
   || (a =? 226) && (b =? 128) && ((128 <=? c) && (c <=? 138) || (c =? 168) || (c =? 169)
                                   || (c =? 175))
   || (a =? 226) && (b =? 129) && (c =? 159)
   || (a =? 227) && (b =? 128) && (c =? 128)
   || (a =? 239) && (b =? 187) && (c =? 191))%bool.

(** The text without its leading white space. *)
Fixpoint trim_start (s : string) : string :=
  match s with
  | String c1 r1 =>
      if is_space c1 then trim_start r1
      else
        match r1 with
        | String c2 r2 =>
            if nbsp c1 c2 then trim_start r2
            else
              match r2 with
              | String c3 r3 => if wide_space c1 c2 c3 then trim_start r3 else s
              | EmptyString => s
              end
        | EmptyString => s
        end
  | EmptyString => s
  end.

Definition parseFloat_string (s : string) : spec_float :=
  match trim_start s with
  | String "+" r => parse_unsigned false r
  | String "-" r => parse_unsigned true r
  | t => parse_unsigned false t
  end.

Definition is_digit (c : ascii) : bool :=
  match digit_of c with
  | Some _ => true
  | None => false
  end.

(** The first byte of a white space character of two or three bytes. *)
Definition starts_wide_space (c : ascii) : bool :=
  let n := Z.of_nat (nat_of_ascii c) in
  ((n =? 194) || (n =? 225) || (n =? 226) || (n =? 227) || (n =? 239))%bool.

(** The bytes a text that [parseFloat] reads a number from can start
    with: white space, a sign, a digit, a point, or the [I] of
    [Infinity]. *)
Definition may_start_number (c : ascii) : bool :=
  (is_space c || starts_wide_space c || is_digit c || Ascii.eqb c "+" || Ascii.eqb c "-" ||
   Ascii.eqb c "." || Ascii.eqb c "I")%bool.

(** [parseFloat(v)] converts [v] to a string and parses that string.
    [undefined], [null] and the booleans print as words, which parse to
    NaN.  A number prints as the shortest decimal that reads back as the
    same number, so it is returned as it is, except that [-0] prints as
    ["0"] and comes back as [+0]. *)
Definition parseFloat (v : value) : float :=
  match v with
  | Undefined | Null | Bool _ => nan
  | Num x => if is_zero x then zero else x
  | Str s => SF2Prim (parseFloat_string s)
  end.

(** [Number.isFinite(x)]: neither NaN nor an infinity. *)
Definition isFinite (x : float) : bool :=
  match Prim2SF x with
  | S754_zero _ | S754_finite _ _ _ => true
  | _ => false
  end.

(** [x || 0] on a number [x]: NaN, [+0] and [-0] are falsy. *)
Definition or_zero (x : float) : float :=
  if (is_nan x || is_zero x)%bool then zero else x.

(** *** Printing *)

(** The decimal digits of a natural number (["0"] for zero). *)
Definition digits (n : Z) : string :=
  NilZero.string_of_uint (N.to_uint (Z.to_N n)).

Definition two_digits (n : Z) : string :=
  if n <? 10 then "0" +:+ digits n else digits n.

(** [m * 2^e] in hundredths, rounded to the nearest integer, a tie going
    to the larger one. *)
Definition hundredths (m : positive) (e : Z) : Z :=
  if 0 <=? e then 100 * Zpos m * 2 ^ e
  else (200 * Zpos m + 2 ^ (- e)) / 2 ^ (1 - e).

(** [1e21 <= m * 2^e] *)
Definition at_least_1e21 (m : positive) (e : Z) : bool :=
  if 0 <=? e then 10 ^ 21 <=? Zpos m * 2 ^ e
  else 10 ^ 21 * 2 ^ (- e) <=? Zpos m.

(** Does the integer [v] round to the binary64 number [m * 2^e]? *)
Definition rounds_to (m : positive) (e : Z) (v : Z) : bool :=
  match binary_normalize prec emax v 0 false with
  | S754_finite false m' e' => ((Zpos m' =? Zpos m) && (e' =? e))%bool
  | _ => false
  end.

(** The decimal with the fewest significant digits that rounds to the
    integer-valued number [m * 2^e = X] ([nd] is the number of digits of
    [X], [k] the number of significant digits tried); of two candidates
    with [k] digits the one nearer to [X]. *)
Fixpoint shortest (fuel : nat) (k : Z) (m : positive) (e X nd : Z) : Z :=
  match fuel with
  | O => X
  | S fuel' =>
      let p := 10 ^ (nd - k) in
      let lo := (X / p) * p in
      let hi := lo + p in
      match rounds_to m e lo, rounds_to m e hi with
      | true, true => if X - lo <=? hi - X then lo else hi
      | true, false => lo
      | false, true => hi
      | false, false => shortest fuel' (k + 1) m e X nd
      end
  end.

Fixpoint strip_zeros_rev (s : list ascii) : list ascii :=
  match s with
  | "0"%char :: s' => strip_zeros_rev s'
  | _ => s
  end.

Definition strip_trailing_zeros (s : string) : string :=
  string_of_list_ascii (rev (strip_zeros_rev (rev (list_ascii_of_string s)))).

(** [Number::toString] of a number [m * 2^e >= 1e21]: scientific
    notation with the shortest digits. *)
Definition to_string_large (m : positive) (e : Z) : string :=
  let X := Zpos m * 2 ^ e in
  let nd := Z.of_nat (String.length (digits X)) in
  let v := digits (shortest (Z.to_nat nd) 1 m e X nd) in
  let n := Z.of_nat (String.length v) in
  match strip_trailing_zeros v with
  | String d EmptyString => String d ("e+" +:+ digits (n - 1))
  | String d ds => String d ("." +:+ ds +:+ "e+" +:+ digits (n - 1))
  | EmptyString => EmptyString
  end.

(** [x.toFixed(2)] *)
Definition toFixed2 (x : float) : string :=
  match Prim2SF x with
  | S754_nan => "NaN"
  | S754_infinity s => if s then "-Infinity" else "Infinity"
  | S754_zero _ => "0.00"
  | S754_finite s m e =>
      (if s then "-" else "") +:+
      (if at_least_1e21 m e then to_string_large m e
       else
         let n := hundredths m e in
         digits (n / 100) +:+ "." +:+ two_digits (n mod 100))
  end.

End JS.

(* ===================================================================== *)
(** ** The store *)
(* ===================================================================== *)

Module Supabase.

(** The service reaches the database through the query builder of
    [@supabase/supabase-js].  A request resolves to an object
    [{ data, error }]; it does not throw.  The two tables are maps from the
    primary key [id] to the row.  *)

(** A row of [payouts]; the table is keyed by the row's [id]. *)
Record payout : Type := Payout {
  partner_id : string;
  amount : JS.value;
  status : string;
  approved_at : option string;
  approved_by : option string;
  processed_at : option string;
  rejected_at : option string;
  rejected_by : option string;
  rejection_reason : option string;
  net_amount : JS.value;
  processing_fee : JS.value
}.

(** A row of [partners], keyed by its [id]; the columns the two
    operations select or write. *)
Record partner : Type := Partner {
  available_balance : JS.value;
  business_name : string;
  email : string;
  first_name : string;
  last_name : string;
  updated_at : option string
}.

Record db : Type := Db {
  payouts : gmap string payout;
  partners : gmap string partner
}.

(** One [column: value] entry of the object given to [.update(...)];
    [None] is [null]. *)
Inductive payout_set : Type :=
| SetStatus (s : string)
| SetApprovedAt (t : option string)
| SetApprovedBy (a : option string)
| SetProcessedAt (t : option string)
| SetRejectedAt (t : option string)
| SetRejectedBy (a : option string)
| SetRejectionReason (r : option string).

Inductive partner_set : Type :=
| SetAvailableBalance (x : float)
| SetUpdatedAt (t : option string).

(** One [.eq(column, value)] filter. *)
Inductive payout_filter : Type :=
| PayoutIdEq (id : string)
| PayoutStatusEq (s : string).

Inductive partner_filter : Type :=
| PartnerIdEq (id : string).

(** The requests the service sends. *)
Inductive query : Type :=
(** [from('payouts').select('*, partners!inner(...)').eq('id', id).single()];
    [balance] tells whether [available_balance] is among the partner
    columns selected. *)
| SelectPayoutWithPartner (balance : bool) (id : string)
(** [from('payouts').update({...}).eq(...)] *)
| UpdatePayouts (sets : list payout_set) (filters : list payout_filter)
(** [from('partners').update({...}).eq(...)] *)
| UpdatePartners (sets : list partner_set) (filters : list partner_filter).

Definition is_write (q : query) : bool :=
  match q with
  | SelectPayoutWithPartner _ _ => false
  | _ => true
  end.

(** The [error] member of a response. *)
Record store_error : Type := StoreError { err_message : string }.

(** The [{ data, error }] object a request resolves to. *)
Record reply : Type := Reply {
  data : option (payout * partner);
  error : option store_error
}.

Definition failed (e : store_error) : reply := Reply None (Some e).
(** The answer to an update that reached the tables. *)
Definition no_content : reply := Reply None None.

(** What [.single()] answers when the filter leaves no row. *)
Definition no_rows : store_error :=
  StoreError "JSON object requested, multiple (or no) rows returned".

Definition set_payout (p : payout) (s : payout_set) : payout :=
  match s, p with
  | SetStatus v, Payout a b _ d e f g h i j k => Payout a b v d e f g h i j k
  | SetApprovedAt v, Payout a b c _ e f g h i j k => Payout a b c v e f g h i j k
  | SetApprovedBy v, Payout a b c d _ f g h i j k => Payout a b c d v f g h i j k
  | SetProcessedAt v, Payout a b c d e _ g h i j k => Payout a b c d e v g h i j k
  | SetRejectedAt v, Payout a b c d e f _ h i j k => Payout a b c d e f v h i j k
  | SetRejectedBy v, Payout a b c d e f g _ i j k => Payout a b c d e f g v i j k
  | SetRejectionReason v, Payout a b c d e f g h _ j k => Payout a b c d e f g h v j k
  end.

(** A number in a JSON body: NaN and the infinities are sent as [null],
    [-0] as [0]. *)
Definition json_number (x : float) : JS.value :=
  if JS.isFinite x then JS.Num (if is_zero x then zero else x) else JS.Null.

Definition set_partner (p : partner) (s : partner_set) : partner :=
  match s, p with
  | SetAvailableBalance x, Partner _ b c d e f => Partner (json_number x) b c d e f
  | SetUpdatedAt v, Partner a b c d e _ => Partner a b c d e v
  end.

Definition payout_matches (id : string) (p : payout) (f : payout_filter) : bool :=
  match f with
  | PayoutIdEq i => String.eqb id i
  | PayoutStatusEq s => String.eqb (status p) s
  end.

Definition partner_matches (id : string) (p : partner) (f : partner_filter) : bool :=
  match f with
  | PartnerIdEq i => String.eqb id i
  end.

Definition update_payout sets filters (id : string) (p : payout) : option payout :=
  Some (if forallb (payout_matches id p) filters then fold_left set_payout sets p else p).

Definition update_partner sets filters (id : string) (p : partner) : option partner :=
  Some (if forallb (partner_matches id p) filters then fold_left set_partner sets p else p).

(** The partner columns a select asks for; a column that is not selected
    is absent from the embedded object. *)
Definition select_columns (balance : bool) (p : partner) : partner :=
  let '(Partner a b c e f g) := p in
  Partner (if balance then a else JS.Undefined) b c e f g.

(** The store's reaction to a request that reaches it. *)
Definition exec (q : query) (d : db) : reply * db :=
  match q with
  | SelectPayoutWithPartner balance id =>
      match payouts d !! id with
      | Some p =>
          match partners d !! partner_id p with
          | Some n => (Reply (Some (p, select_columns balance n)) None, d)
          | None => (failed no_rows, d)
          end
      | None => (failed no_rows, d)
      end
  | UpdatePayouts sets filters =>
      (no_content, Db (map_imap (update_payout sets filters) (payouts d)) (partners d))
  | UpdatePartners sets filters =>
      (no_content, Db (payouts d) (map_imap (update_partner sets filters) (partners d)))
  end.

End Supabase.

(* ===================================================================== *)
(** ** Asynchronous computations *)
(* ===================================================================== *)

Module Async.
Import Supabase.

(** The message handed to [emailService.sendEmail]. *)
Inductive template_arg : Type :=
| Plain (v : JS.value)
| Text (s : string)
(** [new Date(t).toLocaleDateString()]: the host's locale renders it. *)
| LocaleDate (t : option string).

Record email_message : Type := EmailMessage {
  to : string;
  subject : string;
  template : string;
  template_data : list (string * template_arg)
}.

(** What the identifier [emailService] evaluates to, when it is bound: a
    falsy value, or an object whose [sendEmail] member is a function (given
    by the error it rejects with, if any) or is not one. *)
Inductive email_service : Type :=
| Falsy
| Service (sendEmail : option (email_message -> option JS.error)).

(** One call of [console.log], [console.warn] or [console.error]: the text
    (without its pictograph) and the values printed after it; a number
    interpolated into the text is listed among the values instead. *)
Inductive level : Type := LogLevel | WarnLevel | ErrorLevel.

Inductive printed : Type :=
| PNumber (x : float)
| PString (s : string)
| PError (e : JS.error)
| PStoreError (e : option store_error).

Record console_line : Type := Line {
  line_level : level;
  line_text : string;
  line_args : list printed
}.

(** The world an operation runs in. *)
Record world : Type := World {
  (** the tables *)
  database : db;
  (** the outcome of the coming requests, in order: [Some e] makes the
      request fail with [e] before it reaches the tables; past the end of
      the list requests succeed *)
  faults : list (option store_error);
  (** the requests sent so far, oldest first *)
  sent : list query;
  (** the binding of the free identifier [emailService] of the service
      module, [None] when no scope binds it *)
  emailService : option email_service;
  (** the binding of the free identifier [adminId] of the controller
      module *)
  adminId : option (option string);
  (** the messages [sendEmail] accepted *)
  outbox : list email_message;
  (** [clock n] is what the [n]-th reading of the clock prints as an ISO
      string; [ticks] counts the readings *)
  clock : nat -> string;
  ticks : nat;
  console : list console_line
}.

(** The effects of the code; [X] is what the effect hands back. *)
Inductive effect : Type -> Type :=
(** [await supabase.from(...)...] *)
| Request (q : query) : effect reply
(** [await emailService.sendEmail(m)] *)
| SendEmail (send : email_message -> option JS.error) (m : email_message) :
    effect (option JS.error)
| LookupEmailService : effect (option email_service)
| LookupAdminId : effect (option (option string))
(** [new Date().toISOString()] *)
| Now : effect string
| Console (l : console_line) : effect unit.

(** An [async] function's run: it returns, throws, or performs an effect
    and goes on with what the effect hands back. *)
Inductive async (A : Type) : Type :=
| Return (a : A)
| Throw (e : JS.error)
| Do {X : Type} (eff : effect X) (k : X -> async A).

Arguments Return {A} a.
Arguments Throw {A} e.
Arguments Do {A X} eff k.

Fixpoint bind {A B : Type} (p : async A) (f : A -> async B) : async B :=
  match p with
  | Return a => f a
  | Throw e => Throw e
  | Do eff k => Do eff (fun x => bind (k x) f)
  end.

(** [try { p } catch (e) { h e }] *)
Fixpoint try_catch {A : Type} (p : async A) (h : JS.error -> async A) : async A :=
  match p with
  | Return a => Return a
  | Throw e => h e
  | Do eff k => Do eff (fun x => try_catch (k x) h)
  end.

#[global] Instance async_ret : MRet async := @Return.
#[global] Instance async_bind : MBind async := fun A B f p => bind p f.

Definition request (q : query) : async reply := Do (Request q) Return.
Definition now : async string := Do Now Return.
Definition console_log (text : string) (args : list printed) : async unit :=
  Do (Console (Line LogLevel text args)) Return.
Definition console_warn (text : string) (args : list printed) : async unit :=
  Do (Console (Line WarnLevel text args)) Return.
Definition console_error (text : string) (args : list printed) : async unit :=
  Do (Console (Line ErrorLevel text args)) Return.

(** How a run ends. *)
Inductive outcome (A : Type) : Type :=
| Returned (a : A)
| Thrown (e : JS.error).

Arguments Returned {A} a.
Arguments Thrown {A} e.

Definition next_fault (fs : list (option store_error)) :
    option store_error * list (option store_error) :=
  match fs with
  | f :: fs' => (f, fs')
  | [] => (None, [])
  end.

(** A request is recorded, then fails as the fault script says or is
    executed on the tables. *)
Definition send_request (q : query) (w : world) : reply * world :=
  let '(World d fs s es ad ob ck tk co) := w in
  let '(fault, fs') := next_fault fs in
  match fault with
  | Some e => (failed e, World d fs' (s ++ [q]) es ad ob ck tk co)
  | None =>
      let '(r, d') := exec q d in
      (r, World d' fs' (s ++ [q]) es ad ob ck tk co)
  end.

Definition perform {X : Type} (eff : effect X) (w : world) : X * world :=
  match eff in effect X return X * world with
  | Request q => send_request q w
  | SendEmail send m =>
      let '(World d fs s es ad ob ck tk co) := w in
      match send m with
      | Some e => (Some e, w)
      | None => (None, World d fs s es ad (ob ++ [m]) ck tk co)
      end
  | LookupEmailService => (emailService w, w)
  | LookupAdminId => (adminId w, w)
  | Now =>
      let '(World d fs s es ad ob ck tk co) := w in
      (ck tk, World d fs s es ad ob ck (S tk) co)
  | Console l =>
      let '(World d fs s es ad ob ck tk co) := w in
      (tt, World d fs s es ad ob ck tk (co ++ [l]))
  end.

(** Running to the end, with nothing else touching the world. *)
Fixpoint run {A : Type} (p : async A) (w : world) : outcome A * world :=
  match p with
  | Return a => (Returned a, w)
  | Throw e => (Thrown e, w)
  | Do eff k => let '(x, w') := perform eff w in run (k x) w'
  end.

(** No fault among the next [n] requests. *)
Fixpoint reliable (n : nat) (fs : list (option store_error)) : bool :=
  match n, fs with
  | S n', None :: fs' => reliable n' fs'
  | S n', Some _ :: _ => false
  | _, _ => true
  end.

(** The same world with another binding of [emailService]. *)
Definition with_emailService (es : option email_service) (w : world) : world :=
  let '(World d fs s _ ad ob ck tk co) := w in World d fs s es ad ob ck tk co.




End Async.

(* ===================================================================== *)
(** ** The service *)
(* ===================================================================== *)

Module AdminService.
Import Supabase Async.

(** What [approvePayout] returns. *)
Record approval : Type := Approval {
  message : string;
  payout_id : string;
  amount : float;
  partner_name : string;
  previous_balance : float;
  new_balance : float
}.

(** What [rejectPayout] returns. *)
Record rejection : Type := Rejection {
  rejection_message : string;
  rejected_payout_id : string;
  returned_reason : string
}.

(** [sendPayoutApprovalEmail(partner, payout, newBalance)]; [payoutId] is
    [payout.id]. *)
Definition sendPayoutApprovalEmail (partner : Supabase.partner) (payoutId : string)
    (payout : Supabase.payout) (newBalance : float) : async unit :=
  try_catch
    (svc ← Do LookupEmailService Return;
     match svc with
     | None => Throw (JS.ReferenceError "emailService")
     | Some Falsy | Some (Service None) =>
         console_warn "Email service not available" []
     | Some (Service (Some send)) =>
         r ← Do (SendEmail send
                   (EmailMessage (email partner)
                      "Payout Approved - Funds Processed"
                      "payout-approval"
                      [("partner_name", Text (first_name partner));
                       ("business_name", Text (business_name partner));
                       ("amount", Plain (Supabase.amount payout));
                       ("net_amount", Plain (net_amount payout));
                       ("processing_fee", Plain (processing_fee payout));
                       ("payout_id", Text payoutId);
                       ("approved_at", LocaleDate (approved_at payout));
                       ("new_balance", Text (JS.toFixed2 newBalance))])) Return;
         match r with
         | Some e => Throw e
         | None => Return tt
         end
     end)
    (fun error => console_error "Error sending payout approval email:" [PError error]).

(** [sendPayoutRejectionEmail(partner, payout, rejectionReason)] *)
Definition sendPayoutRejectionEmail (partner : Supabase.partner) (payoutId : string)
    (payout : Supabase.payout) (rejectionReason : string) : async unit :=
  try_catch
    (svc ← Do LookupEmailService Return;
     match svc with
     | None => Throw (JS.ReferenceError "emailService")
     | Some Falsy | Some (Service None) =>
         console_warn "Email service not available" []
     | Some (Service (Some send)) =>
         today ← now;
         r ← Do (SendEmail send
                   (EmailMessage (email partner)
                      "Payout Request Rejected"
                      "payout-rejection"
                      [("partner_name", Text (first_name partner));
                       ("business_name", Text (business_name partner));
                       ("amount", Plain (Supabase.amount payout));
                       ("payout_id", Text payoutId);
                       ("rejection_reason",
                        Text (if String.eqb rejectionReason "" then "No reason provided"
                              else rejectionReason));
                       ("rejected_at", LocaleDate (Some today))])) Return;
         match r with
         | Some e => Throw e
         | None => Return tt
         end
     end)
    (fun error => console_error "Error sending payout rejection email:" [PError error]).

(** The message of the insufficient-balance error. *)
Definition insufficient_message (available required : float) : string :=
  "Insufficient partner balance. Available: $" +:+ JS.toFixed2 available +:+
  ", Required: $" +:+ JS.toFixed2 required.

(** [async approvePayout(payoutId, adminId = null)] *)
Definition approvePayout (payoutId : string) (adminId : option string) : async approval :=
  try_catch
    (console_log ("Processing payout approval: " +:+ payoutId) [];;
     fetched ← request (SelectPayoutWithPartner true payoutId);
     match error fetched, data fetched with
     | None, Some (payout, partner) =>
         if negb (String.eqb (status payout) "pending") then
           Throw (JS.Error ("Cannot approve payout with status: " +:+ status payout))
         else
           let payoutAmount := JS.parseFloat (Supabase.amount payout) in
           let currentAvailableBalance :=
             JS.or_zero (JS.parseFloat (available_balance partner)) in
           if PrimFloat.ltb currentAvailableBalance payoutAmount then
             Throw (JS.Error (insufficient_message currentAvailableBalance payoutAmount))
           else
             try_catch
               (t1 ← now;
                t2 ← now;
                r1 ← request
                       (UpdatePayouts
                          [SetStatus "approved"; SetApprovedAt (Some t1);
                           SetApprovedBy adminId; SetProcessedAt (Some t2)]
                          [PayoutIdEq payoutId]);
                match error r1 with
                | Some updatePayoutError =>
                    Throw (JS.Error ("Failed to approve payout: " +:+
                                     err_message updatePayoutError))
                | None =>
                    let newAvailableBalance :=
                      PrimFloat.sub currentAvailableBalance payoutAmount in
                    t3 ← now;
                    r2 ← request
                           (UpdatePartners
                              [SetAvailableBalance newAvailableBalance;
                               SetUpdatedAt (Some t3)]
                              [PartnerIdEq (partner_id payout)]);
                    match error r2 with
                    | Some partnerUpdateError =>
                        console_error "Partner balance update error:"
                          [PStoreError (Some partnerUpdateError)];;
                        request
                          (UpdatePayouts
                             [SetStatus "pending"; SetApprovedAt None;
                              SetApprovedBy None; SetProcessedAt None]
                             [PayoutIdEq payoutId]);;
                        Throw (JS.Error ("Failed to update partner balance: " +:+
                                         err_message partnerUpdateError))
                    | None =>
                        console_log ("Payout approved successfully: " +:+ payoutId) [];;
                        console_log
                          ("Partner " +:+ business_name partner +:+ " balance updated")
                          [PNumber currentAvailableBalance; PNumber newAvailableBalance];;
                        try_catch
                          (sendPayoutApprovalEmail partner payoutId payout
                             newAvailableBalance)
                          (fun emailError =>
                             console_warn "Failed to send payout approval email:"
                               [PError emailError]);;
                        Return (Approval "Payout approved successfully" payoutId
                                  payoutAmount (business_name partner)
                                  currentAvailableBalance newAvailableBalance)
                    end
                end)
               (fun transactionError =>
                  console_error "Transaction error during payout approval:"
                    [PError transactionError];;
                  Throw transactionError)
     | fetchError, _ =>
         console_error "Payout fetch error:" [PStoreError fetchError];;
         Throw (JS.Error "Payout not found")
     end)
    (fun error =>
       console_error "Error approving payout:" [PError error];;
       Throw error).

(** [async rejectPayout(payoutId, adminId = null, rejectionReason = '')] *)
Definition rejectPayout (payoutId : string) (adminId : option string)
    (rejectionReason : string) : async rejection :=
  try_catch
    (console_log ("Processing payout rejection: " +:+ payoutId) [];;
     fetched ← request (SelectPayoutWithPartner false payoutId);
     match error fetched, data fetched with
     | None, Some (payout, partner) =>
         if negb (String.eqb (status payout) "pending") then
           Throw (JS.Error ("Cannot reject payout with status: " +:+ status payout))
         else
           t ← now;
           r ← request
                 (UpdatePayouts
                    [SetStatus "rejected"; SetRejectedAt (Some t);
                     SetRejectedBy adminId;
                     SetRejectionReason
                       (Some (if String.eqb rejectionReason "" then "Rejected by admin"
                              else rejectionReason))]
                    [PayoutIdEq payoutId]);
           match error r with
           | Some updateError => Throw (JS.Error "Failed to reject payout")
           | None =>
               console_log ("Payout rejected successfully: " +:+ payoutId) [];;
               try_catch
                 (sendPayoutRejectionEmail partner payoutId payout rejectionReason)
                 (fun emailError =>
                    console_warn "Failed to send payout rejection email:"
                      [PError emailError]);;
               Return (Rejection "Payout rejected successfully" payoutId rejectionReason)
           end
     | _, _ => Throw (JS.Error "Payout not found")
     end)
    (fun error =>
       console_error "Error rejecting payout:" [PError error];;
       Throw error).

End AdminService.

(* ===================================================================== *)
(** ** The controller *)
(* ===================================================================== *)

Module AdminController.
Import Async.

(** The part of the request the handler reads: [req.params.payoutId],
    [None] when the parameter is absent. *)
Record http_request : Type := HttpRequest { params_payoutId : option string }.

(** The JSON body of a response. *)
Inductive body : Type :=
| SuccessBody (data : AdminService.approval) (message : string)
| FailureBody (error : string).

Definition success (b : body) : bool :=
  match b with
  | SuccessBody _ _ => true
  | FailureBody _ => false
  end.

Record response : Type := Response { statusCode : Z; json : body }.

(** [async approvePayout(req, res)]: the response it sends. *)
Definition approvePayout (req : http_request) : async response :=
  try_catch
    (match params_payoutId req with
     | None | Some EmptyString =>
         Return (Response 400 (FailureBody "Payout ID is required"))
     | Some payoutId =>
         (* the argument [adminId]: a free identifier of the module *)
         bound ← Do LookupAdminId Return;
         match bound with
         | None => Throw (JS.ReferenceError "adminId")
         | Some adminId =>
             result ← AdminService.approvePayout payoutId adminId;
             Return (Response 200 (SuccessBody result "Payout approved successfully"))
         end
     end)
    (fun error =>
       console_error "Payout approval failed:" [PString (JS.message error)];;
       Return (Response 400 (FailureBody (JS.message error)))).

End AdminController.

(* ===================================================================== *)
(** ** Vocabulary of the statements *)
(* ===================================================================== *)

Module Ledger.
Import Supabase Async.

(** The two numbers [approvePayout] compares. *)
Definition required (p : payout) : float := JS.parseFloat (amount p).
Definition available (n : partner) : float :=
  JS.or_zero (JS.parseFloat (available_balance n)).

(** A payout row after the approval write made at clock readings [t1],
    [t2]. *)
Definition approved_row (p : payout) (t1 t2 : string) (adminId : option string) : payout :=
  Payout (partner_id p) (amount p) "approved" (Some t1) adminId (Some t2)
    (rejected_at p) (rejected_by p) (rejection_reason p) (net_amount p) (processing_fee p).

(** A payout row after the compensating write. *)
Definition reverted_row (p : payout) : payout :=
  Payout (partner_id p) (amount p) "pending" None None None
    (rejected_at p) (rejected_by p) (rejection_reason p) (net_amount p) (processing_fee p).

(** A payout row after the rejection write. *)
Definition rejected_row (p : payout) (t : string) (adminId : option string)
    (reason : string) : payout :=
  Payout (partner_id p) (amount p) "rejected" (approved_at p) (approved_by p)
    (processed_at p) (Some t) adminId (Some reason) (net_amount p) (processing_fee p).

(** A partner row after its balance was set to [x]. *)
Definition debited_row (n : partner) (x : float) (t : string) : partner :=
  Partner (json_number x) (business_name n) (email n) (first_name n) (last_name n) (Some t).

(** The three requests of a successful approval. *)
Definition approval_requests (payoutId : string) (adminId : option string) (p : payout)
    (x : float) (t1 t2 t3 : string) : list query :=
  [SelectPayoutWithPartner true payoutId;
   UpdatePayouts [SetStatus "approved"; SetApprovedAt (Some t1);
                  SetApprovedBy adminId; SetProcessedAt (Some t2)]
                 [PayoutIdEq payoutId];
   UpdatePartners [SetAvailableBalance x; SetUpdatedAt (Some t3)]
                  [PartnerIdEq (partner_id p)]].

(** The compensating write. *)
Definition compensation (payoutId : string) : query :=
  UpdatePayouts [SetStatus "pending"; SetApprovedAt None; SetApprovedBy None;
                 SetProcessedAt None]
                [PayoutIdEq payoutId].

(** A request that sets no balance below zero. *)
Definition sets_no_negative_balance (q : query) : Prop :=
  match q with
  | UpdatePartners sets _ =>
      Forall (fun s => match s with
                       | SetAvailableBalance x => PrimFloat.leb zero x = true
                       | SetUpdatedAt _ => True
                       end) sets
  | _ => True
  end.

(** A number of magnitude below [1e21] (and not NaN). *)
Definition below_1e21 (x : float) : bool :=
  match Prim2SF x with
  | S754_zero _ => true
  | S754_finite _ m e => negb (JS.at_least_1e21 m e)
  | _ => false
  end.

(** The text ends with a point and two digits. *)
Definition has_two_decimals (s : string) : bool :=
  match rev (list_ascii_of_string s) with
  | d2 :: d1 :: "."%char :: _ => JS.is_digit d1 && JS.is_digit d2
  | _ => false
  end.

(** Example rows: a pending payout of [amount] owed to the partner [N1],
    and that partner with the balance [balance]. *)
Definition pending_payout (amount : JS.value) : payout :=
  Payout "N1" amount "pending" None None None None None None JS.Null JS.Null.

Definition acme (balance : JS.value) : partner :=
  Partner balance "Acme Travel" "pay@acme.example" "Ada" "Obi" None.

Definition example_clock (n : nat) : string :=
  "2025-01-01T00:00:0" +:+ JS.digits (Z.of_nat n) +:+ "Z".

(** A world whose tables hold the payout [P1] and the partner [N1];
    nothing is bound to [emailService] or [adminId], as in the two
    modules. *)
Definition one_payout (p : payout) (n : partner) (fs : list (option store_error)) : world :=
  World (Db {[ "P1" := p ]} {[ "N1" := n ]}) fs [] None None [] example_clock 0%nat [].

(** The sign of a binary64 number is not negative: zero, a positive number
    or [+Infinity]. *)
Definition nonneg (x : spec_float) : bool :=
  match x with
  | S754_zero _ => true
  | S754_infinity s | S754_finite s _ _ => negb s
  | S754_nan => false
  end.

(** A point followed by the two digits of [r]. *)
Definition fraction_ok (r : Z) : bool :=
  has_two_decimals ("." +:+ JS.two_digits r).

End Ledger.

Set Warnings "-register-all".

(* ===================================================================== *)
(** ** More built-ins: printing numbers, [parseInt], [Math], strings *)
(* ===================================================================== *)

Module Std.

(** *** [Number::toString] *)

(** The [n] with [10^(n-1) <= num/den < 10^n]. *)
Definition decimal_length (n : Z) : Z := Z.of_nat (String.length (JS.digits n)).

Definition decimal_exponent (num den : positive) : Z :=
  let a := decimal_length (Zpos num) - decimal_length (Zpos den) in
  (* [10^(a-1) < num/den < 10^(a+1)] *)
  if (if 0 <=? a then Zpos den * 10 ^ a <=? Zpos num
      else Zpos den <=? Zpos num * 10 ^ (- a))
  then a + 1 else a.

(** Does [c * 10^t] round to the binary64 number [m * 2^e]? *)
Definition decimal_rounds_to (m : positive) (e : Z) (c : positive) (t : Z) : bool :=
  match (if 0 <=? t then JS.round_ratio (c * Z.to_pos (10 ^ t)) 1
         else JS.round_ratio c (Z.to_pos (10 ^ (- t)))) with
  | S754_finite false m' e' => ((Zpos m' =? Zpos m) && (e' =? e))%bool
  | _ => false
  end.

(** The digits [s] and the exponent [n] of the shortest decimal
    [s * 10^(n-k)] ([k] digits) that rounds to [num/den = m * 2^e]; of two
    candidates with [k] digits the one nearer to the number.  Seventeen
    digits always suffice. *)
Fixpoint shortest_digits (fuel : nat) (k : Z) (m : positive) (e : Z)
    (num den : positive) (n : Z) : Z * Z :=
  let t := k - n in
  (* [lo <= num/den * 10^t < lo + 1] *)
  let '(a, b) := if 0 <=? t then (Zpos num * 10 ^ t, Zpos den)
                 else (Zpos num, Zpos den * 10 ^ (- t)) in
  let lo := a / b in
  let hi := lo + 1 in
  let pick (c : Z) := if c =? 10 ^ k then (10 ^ (k - 1), n + 1) else (c, n) in
  match fuel with
  | O => pick lo
  | S fuel' =>
      match decimal_rounds_to m e (Z.to_pos lo) (- t),
            decimal_rounds_to m e (Z.to_pos hi) (- t) with
      | true, true =>
          (* nearer to the number: [num/den*10^t - lo] against [hi - num/den*10^t] *)
          if 2 * a - 2 * lo * b <=? b then pick lo else pick hi
      | true, false => pick lo
      | false, true => pick hi
      | false, false => shortest_digits fuel' (k + 1) m e num den n
      end
  end.

Fixpoint zeros (n : nat) : string :=
  match n with
  | O => EmptyString
  | S n' => String "0" (zeros n')
  end.

(** The text of a positive finite number. *)
Definition positive_to_string (m : positive) (e : Z) : string :=
  let '(num, den) := if 0 <=? e then (m * Z.to_pos (2 ^ e), 1)%positive
                     else (m, Z.to_pos (2 ^ (- e))) in
  let n0 := decimal_exponent num den in
  let '(s, n) := shortest_digits 17 1 m e num den n0 in
  let ds := JS.strip_trailing_zeros (JS.digits s) in
  let k := Z.of_nat (String.length ds) in
  if (-6 <? n) && (n <=? 21) then
    if k <=? n then ds +:+ zeros (Z.to_nat (n - k))
    else if 0 <? n then
      String.substring 0 (Z.to_nat n) ds +:+ "." +:+
      String.substring (Z.to_nat n) (Z.to_nat (k - n)) ds
    else "0." +:+ zeros (Z.to_nat (- n)) +:+ ds
  else
    let c := n - 1 in
    let exponent := (if c <? 0 then "e-" else "e+") +:+ JS.digits (Z.abs c) in
    match ds with
    | String d EmptyString => String d exponent
    | String d rest => String d ("." +:+ rest +:+ exponent)
    | EmptyString => EmptyString
    end.

(** [Number::toString(x)], radix 10. *)
Definition number_to_string (x : float) : string :=
  match Prim2SF x with
  | S754_nan => "NaN"
  | S754_zero _ => "0"
  | S754_infinity s => if s then "-Infinity" else "Infinity"
  | S754_finite s m e => (if s then "-" else "") +:+ positive_to_string m e
  end.

(** *** Values

    A JavaScript value as the service and the controller handle them: the
    primitives, arrays and objects (the members in insertion order). *)
Inductive value : Type :=
| Undefined
| Null
| Bool (b : bool)
| Num (x : float)
| Str (s : string)
| Arr (items : list value)
| Obj (members : list (string * value)).

(** The members of an object, [key: value] in insertion order. *)
Definition members : Type := list (string * value).

Fixpoint lookup_member (k : string) (ms : members) : option value :=
  match ms with
  | [] => None
  | (k', v) :: ms' => if String.eqb k' k then Some v else lookup_member k ms'
  end.

(** [o.k] for a value [o] that is neither [null] nor [undefined]: the
    member, or [undefined] when [o] has none of that name. *)
Definition get (o : value) (k : string) : value :=
  match o with
  | Obj ms => default Undefined (lookup_member k ms)
  | _ => Undefined
  end.

(** [o?.k] *)
Definition get_optional (o : value) (k : string) : value :=
  match o with
  | Undefined | Null => Undefined
  | _ => get o k
  end.

(** [{...ms, k: v}]: an existing member keeps its place and takes the new
    value, a new one goes last. *)
Fixpoint set_member (k : string) (v : value) (ms : members) : members :=
  match ms with
  | [] => [(k, v)]
  | (k', v') :: ms' =>
      if String.eqb k' k then (k, v) :: ms' else (k', v') :: set_member k v ms'
  end.

(** The truthiness of a value. *)
Definition truthy (v : value) : bool :=
  match v with
  | Undefined | Null => false
  | Bool b => b
  | Num x => negb (is_nan x || is_zero x)
  | Str s => negb (String.eqb s "")
  | Arr _ | Obj _ => true
  end.

(** [a || b] *)
Definition or_else (a b : value) : value := if truthy a then a else b.

(** [ToString(v)]; an array prints its items separated by commas, [null]
    and [undefined] items as nothing. *)
Fixpoint to_string (v : value) : string :=
  match v with
  | Undefined => "undefined"
  | Null => "null"
  | Bool b => if b then "true" else "false"
  | Num x => number_to_string x
  | Str s => s
  | Arr items =>
      (fix join (first : bool) (l : list value) : string :=
         match l with
         | [] => EmptyString
         | x :: l' =>
             (if first then "" else ",") +:+
             match x with
             | Undefined | Null => EmptyString
             | _ => to_string x
             end +:+ join false l'
         end) true items
  | Obj _ => "[object Object]"
  end.

(** *** White space *)

(** The text without its trailing white space. *)
Fixpoint trim_end (s : string) : string :=
  match s with
  | String c r =>
      if String.eqb (JS.trim_start s) "" then EmptyString else String c (trim_end r)
  | EmptyString => EmptyString
  end.

(** [s.trim()] *)
Definition trim (s : string) : string := trim_end (JS.trim_start s).

(** *** Searching *)

(** [s.includes(needle)] *)
Fixpoint includes (needle s : string) : bool :=
  if String.prefix needle s then true
  else
    match s with
    | String _ r => includes needle r
    | EmptyString => false
    end.

(** *** [parseFloat] and [parseInt] *)

(** [parseFloat(v)] *)
Definition parseFloat (v : value) : float :=
  match v with
  | Num x => JS.parseFloat (JS.Num x)
  | _ => SF2Prim (JS.parseFloat_string (to_string v))
  end.

Definition hex_digit_of (c : ascii) : option Z :=
  let n := Z.of_nat (nat_of_ascii c) in
  if (48 <=? n) && (n <=? 57) then Some (n - 48)
  else if (97 <=? n) && (n <=? 102) then Some (n - 87)
  else if (65 <=? n) && (n <=? 70) then Some (n - 55)
  else None.

(** The longest run of digits of the radix at the head of [s]: its value
    and its length. *)
Fixpoint scan_radix (hex : bool) (acc cnt : Z) (s : string) : Z * Z :=
  match s with
  | String c s' =>
      match (if hex then hex_digit_of c else JS.digit_of c) with
      | Some d => scan_radix hex ((if hex then 16 else 10) * acc + d) (cnt + 1) s'
      | None => (acc, cnt)
      end
  | EmptyString => (acc, cnt)
  end.

(** [parseInt(v)], no radix given: white space, a sign, [0x] or [0X] for
    radix 16, then digits; NaN when there is no digit. *)
Definition parseInt (v : value) : float :=
  let s := JS.trim_start (to_string v) in
  let '(negative, s1) :=
    match s with
    | String "-" r => (true, r)
    | String "+" r => (false, r)
    | _ => (false, s)
    end in
  let '(hex, s2) :=
    match s1 with
    | String "0" (String c r) =>
        if (Ascii.eqb c "x" || Ascii.eqb c "X")%bool then (true, r) else (false, s1)
    | _ => (false, s1)
    end in
  let '(n, cnt) := scan_radix hex 0 0 s2 in
  if cnt =? 0 then nan
  else SF2Prim (binary_normalize prec emax (if negative then - n else n) 0 negative).

(** *** [Math] *)

(** [Math.max(a, b)] *)
Definition max (a b : float) : float :=
  if (is_nan a || is_nan b)%bool then nan
  else if PrimFloat.ltb a b then b
  else if PrimFloat.ltb b a then a
  else if is_zero a then (if get_sign a then b else a)
  else a.

(** [Math.min(a, b)] *)
Definition min (a b : float) : float :=
  if (is_nan a || is_nan b)%bool then nan
  else if PrimFloat.ltb a b then a
  else if PrimFloat.ltb b a then b
  else if is_zero a then (if get_sign a then a else b)
  else a.

(** [Math.ceil(x)] *)
Definition ceil (x : float) : float :=
  match Prim2SF x with
  | S754_finite s m e =>
      if 0 <=? e then x
      else
        let d := 2 ^ (- e) in
        if s then SF2Prim (binary_normalize prec emax (- (Zpos m / d)) 0 true)
        else SF2Prim (binary_normalize prec emax ((Zpos m + d - 1) / d) 0 false)
  | _ => x
  end.

(** The decimal numeral of an integer, as [`${Date.now()}`] prints one. *)
Definition integer_to_string (n : Z) : string :=
  if n <? 0 then "-" +:+ JS.digits (- n) else JS.digits n.

(** [x || d] on numbers *)
Definition number_or (x d : float) : float :=
  if (is_nan x || is_zero x)%bool then d else x.

End Std.

(* ===================================================================== *)
(** ** The service's other operations: store, mail, clock *)
(* ===================================================================== *)

Module Node.
Import Std.

(** The [error] member of a response of the store. *)
Record pg_error : Type := PgError { code : string; pg_message : string }.

(** The [{ data, error, count }] object a request resolves to; [count] is
    the number read from the response's range header, when one was asked
    for. *)
Record reply : Type := Reply {
  data : value;
  error : option pg_error;
  count : option float
}.

(** One filter of a request, in the order the builder was called. *)
Inductive filter : Type :=
| Eq (column : string) (v : value)
| Gte (column : string) (v : value)
| Lte (column : string) (v : value)
| Or (conditions : string).

(** What a request does; [columns] is the select list as it goes on the
    wire, without white space. *)
Inductive verb : Type :=
| Select (columns : string) (exact_count : bool)
| Update (patch : members) (returning : option string)
| Insert (row : members) (returning : option string)
| Rpc (args : members).

(** A request to the store: the table (or the function), what to do, the
    filters, [.order(column, { ascending })], [.range(from, to)] and
    whether [.single()] was called. *)
Record request : Type := Request {
  target : string;
  action : verb;
  filters : list filter;
  order : option (value * bool);
  range : option (float * float);
  single : bool
}.

(** The object handed to [sendEmail]. *)
Record email : Type := Email {
  to : value;
  subject : string;
  template : string;
  template_data : members
}.

Inductive level : Type := LogLevel | WarnLevel | ErrorLevel.

(** One call of [console.log], [console.warn] or [console.error]: the text
    (without its pictograph) and the values printed after it. *)
Inductive printed : Type :=
| PValue (v : value)
| PError (e : JS.error)
| PStoreError (e : pg_error).

Record console_line : Type := Line {
  line_level : level;
  line_text : string;
  line_args : list printed
}.

(** One reading of the clock: [new Date().toISOString()] and
    [Date.now()]. *)
Record instant : Type := Instant { iso : string; millis : Z }.

(** The world an operation runs in.  The store is an outside party: its
    answers are given, one for each request in the order the requests are
    made; when the answers run out it answers with no data and no error. *)
Record world : Type := World {
  answers : list reply;
  (** the requests made so far, oldest first *)
  sent : list request;
  (** [sendEmail] of the e-mail utility: the error it rejects a message
      with, if any *)
  sendEmail : email -> option JS.error;
  (** the messages [sendEmail] accepted *)
  outbox : list email;
  (** the [n]-th reading of the clock *)
  clock : nat -> instant;
  ticks : nat;
  (** [new Date(v)] moved to 23:59:59.999 local time, as an ISO string;
      [None] when [v] is no date *)
  end_of_day : value -> option string;
  console : list console_line
}.

Inductive effect : Type -> Type :=
(** [await supabase...] *)
| Call (r : request) : effect reply
(** [await sendEmail(m)] *)
| SendEmail (m : email) : effect (option JS.error)
(** a reading of the clock *)
| Now : effect instant
(** [new Date(v)], [setHours(23, 59, 59, 999)], [toISOString()] *)
| EndOfDay (v : value) : effect (option string)
| Console (l : console_line) : effect unit.

(** A run of an [async] function: it returns, throws, or performs an
    effect and goes on with what the effect hands back. *)
Inductive proc (A : Type) : Type :=
| Return (a : A)
| Throw (e : JS.error)
| Do {X : Type} (eff : effect X) (k : X -> proc A).

Arguments Return {A} a.
Arguments Throw {A} e.
Arguments Do {A X} eff k.

Fixpoint bind {A B : Type} (p : proc A) (f : A -> proc B) : proc B :=
  match p with
  | Return a => f a
  | Throw e => Throw e
  | Do eff k => Do eff (fun x => bind (k x) f)
  end.

(** [try { p } catch (e) { h e }] *)
Fixpoint try_catch {A : Type} (p : proc A) (h : JS.error -> proc A) : proc A :=
  match p with
  | Return a => Return a
  | Throw e => h e
  | Do eff k => Do eff (fun x => try_catch (k x) h)
  end.

#[global] Instance proc_ret : MRet proc := @Return.
#[global] Instance proc_bind : MBind proc := fun A B f p => bind p f.

Definition call (r : request) : proc reply := Do (Call r) Return.
Definition now : proc instant := Do Now Return.
Definition console_log (text : string) (args : list printed) : proc unit :=
  Do (Console (Line LogLevel text args)) Return.
Definition console_warn (text : string) (args : list printed) : proc unit :=
  Do (Console (Line WarnLevel text args)) Return.
Definition console_error (text : string) (args : list printed) : proc unit :=
  Do (Console (Line ErrorLevel text args)) Return.

(** [new Error(msg)] thrown. *)
Definition throw {A : Type} (msg : string) : proc A := Throw (JS.Error msg).

(** [throw error] of the store's error object. *)
Definition throw_store {A : Type} (e : pg_error) : proc A :=
  Throw (JS.Err "PostgrestError" (pg_message e)).

(** Calling a method that the value does not have. *)
Definition TypeError (msg : string) : JS.error := JS.Err "TypeError" msg.

Definition no_answer : reply := Reply Null None None.

Definition perform {X : Type} (eff : effect X) (w : world) : X * world :=
  let '(World an s se ob ck tk ed co) := w in
  match eff in effect X return X * world with
  | Call r =>
      match an with
      | a :: an' => (a, World an' (s ++ [r]) se ob ck tk ed co)
      | [] => (no_answer, World [] (s ++ [r]) se ob ck tk ed co)
      end
  | SendEmail m =>
      match se m with
      | Some e => (Some e, w)
      | None => (None, World an s se (ob ++ [m]) ck tk ed co)
      end
  | Now => (ck tk, World an s se ob ck (S tk) ed co)
  | EndOfDay v => (ed v, w)
  | Console l => (tt, World an s se ob ck tk ed (co ++ [l]))
  end.

Inductive outcome (A : Type) : Type :=
| Returned (a : A)
| Thrown (e : JS.error).

Arguments Returned {A} a.
Arguments Thrown {A} e.

Fixpoint run {A : Type} (p : proc A) (w : world) : outcome A * world :=
  match p with
  | Return a => (Returned a, w)
  | Throw e => (Thrown e, w)
  | Do eff k => let '(x, w') := perform eff w in run (k x) w'
  end.

End Node.

(* ===================================================================== *)
(** ** The service, continued *)
(* ===================================================================== *)

Module Admin.
Import Std Node.

(** *** Pagination, as [getAllPartners], [getAllPayouts] and
    [getAllBookings] compute it *)

(** [Math.max(1, parseInt(page) || 1)] *)
Definition validatedPage (page : value) : float :=
  Std.max 1 (number_or (parseInt page) 1).

(** [Math.min(100, Math.max(1, parseInt(limit) || 20))] *)
Definition validatedLimit (limit : value) : float :=
  Std.min 100 (Std.max 1 (number_or (parseInt limit) 20)).

(** [(validatedPage - 1) * validatedLimit] *)
Definition offset (page limit : value) : float :=
  PrimFloat.mul (PrimFloat.sub (validatedPage page) 1) (validatedLimit limit).

(** [Math.ceil(totalRecords / validatedLimit)] with
    [totalRecords = count || 0] *)
Definition totalRecords (count : option float) : float :=
  match count with
  | Some c => number_or c 0
  | None => 0
  end.

Definition totalPages (count : option float) (limit : value) : float :=
  Std.ceil (PrimFloat.div (totalRecords count) (validatedLimit limit)).

(** [s.trim()] of a value: a method of strings only. *)
Definition trim_of (v : value) : option string :=
  match v with
  | Str s => Some (trim s)
  | _ => None
  end.

(** [async getAllPayouts(page = 1, limit = 20, filters = {})] *)
Definition getAllPayouts (page limit : value) (filters : members) : proc value :=
  let f := Obj filters in
  try_catch
    (console_log "Fetching all payouts with filters:" [PValue f];;
     let validatedPage := validatedPage page in
     let validatedLimit := validatedLimit limit in
     let offset := offset page limit in
     (* the status filter *)
     let q1 :=
       if truthy (get f "status") &&
          negb (match get f "status" with Str "all" => true | _ => false end)
       then [Eq "status" (get f "status")] else [] in
     (* the date range *)
     let q2 := if truthy (get f "startDate")
               then q1 ++ [Gte "requested_at" (get f "startDate")] else q1 in
     q3 ← (if truthy (get f "endDate") then
             endDateTime ← Do (EndOfDay (get f "endDate")) Return;
             match endDateTime with
             | Some t => Return (q2 ++ [Lte "requested_at" (Str t)])
             | None => Throw (JS.Err "RangeError" "Invalid time value")
             end
           else Return q2);
     (* the search filter *)
     q4 ← (if truthy (get f "search") then
             match trim_of (get f "search") with
             | Some searchTerm =>
                 if negb (String.eqb searchTerm "") then
                   Return (q3 ++ [Or ("partners.business_name.ilike.%" +:+ searchTerm +:+
                                      "%,partners.email.ilike.%" +:+ searchTerm +:+ "%")])
                 else Return q3
             | None => Throw (TypeError "filters.search.trim is not a function")
             end
           else Return q3);
     let sortBy := or_else (get f "sortBy") (Str "requested_at") in
     let ascending := match get f "sortOrder" with Str "asc" => true | _ => false end in
     r ← call (Request "payouts"
                 (Select "*,partners!inner(business_name,email,first_name,last_name)" true)
                 q4 (Some (sortBy, ascending))
                 (Some (offset, PrimFloat.sub (PrimFloat.add offset validatedLimit) 1))
                 false);
     match error r with
     | Some e =>
         console_error "Error fetching payouts:" [PStoreError e];;
         throw ("Failed to fetch payouts: " +:+ pg_message e)
     | None =>
         let pages := totalPages (count r) limit in
         Return (Obj [("payouts", or_else (data r) (Arr []));
                      ("pagination",
                       Obj [("total", Num (totalRecords (count r)));
                            ("page", Num validatedPage);
                            ("limit", Num validatedLimit);
                            ("totalPages", Num pages);
                            ("hasNextPage", Bool (PrimFloat.ltb validatedPage pages));
                            ("hasPreviousPage", Bool (PrimFloat.ltb 1 validatedPage))])])
     end)
    (fun error =>
       console_error "Error in getAllPayouts:" [PError error];;
       Throw error).

(** *** Partners *)

Definition validActions : list string :=
  ["approve"; "reject"; "suspend"; "activate"; "update_commission"; "update"].

(** [validActions.join(', ')] *)
Definition validActions_text : string :=
  "approve, reject, suspend, activate, update_commission, update".

(** [v === 'text'] *)
Definition is_text (v : value) (text : string) : bool :=
  match v with
  | Str s => String.eqb s text
  | _ => false
  end.

(** [validActions.includes(action)] *)
Definition is_valid_action (action : value) : bool :=
  existsb (is_text action) validActions.

(** [v !== 0] *)
Definition is_not_zero (v : value) : bool :=
  match v with
  | Num x => negb (PrimFloat.eqb x 0)
  | _ => true
  end.

(** What the [switch] of [managePartners] leaves: an early result, or the
    update and the e-mail to send. *)
Inductive prepared : Type :=
| Already (result : value)
| Change (updateData : members) (emailData : option email).

(** The [switch (action)] of [managePartners]. *)
Definition prepare (action partner : value) (data : members) : proc prepared :=
  let status := get partner "status" in
  if is_text action "approve" then
    if is_text status "approved" then
      console_log "Partner already approved" [];;
      Return (Already (Obj [("message", Str "Partner is already approved");
                            ("partner", partner)]))
    else
      t1 ← now;
      t2 ← now;
      Return (Change [("status", Str "approved"); ("approved_at", Str (iso t1));
                      ("updated_at", Str (iso t2))]
                (Some (Email (get partner "email")
                         "Partner Application Approved - Elevatio" "partner-approval"
                         [("businessName", get partner "business_name");
                          ("contactPerson", get partner "contact_person")])))
  else if is_text action "reject" then
    if is_text status "rejected" then
      console_log "Partner already rejected" [];;
      Return (Already (Obj [("message", Str "Partner is already rejected");
                            ("partner", partner)]))
    else
      t1 ← now;
      t2 ← now;
      Return (Change [("status", Str "rejected"); ("rejected_at", Str (iso t1));
                      ("rejection_reason",
                       or_else (get (Obj data) "reason") (Str "Application rejected"));
                      ("updated_at", Str (iso t2))]
                (Some (Email (get partner "email")
                         "Partner Application Update - Elevatio" "partner-rejection"
                         [("businessName", get partner "business_name");
                          ("contactPerson", get partner "contact_person");
                          ("reason", get (Obj data) "reason")])))
  else if is_text action "suspend" then
    if is_text status "suspended" then
      console_log "Partner already suspended" [];;
      Return (Already (Obj [("message", Str "Partner is already suspended");
                            ("partner", partner)]))
    else
      t1 ← now;
      t2 ← now;
      Return (Change [("status", Str "suspended"); ("suspended_at", Str (iso t1));
                      ("updated_at", Str (iso t2))] None)
  else if is_text action "activate" then
    if is_text status "suspended" then
      t ← now;
      Return (Change [("status", Str "approved"); ("suspended_at", Null);
                      ("updated_at", Str (iso t))] None)
    else if is_text status "approved" then
      console_log "Partner already active" [];;
      Return (Already (Obj [("message", Str "Partner is already active");
                            ("partner", partner)]))
    else throw "Cannot activate partner that is not suspended or approved"
  else if is_text action "update_commission" then
    let given := get (Obj data) "commissionRate" in
    if negb (truthy given) && is_not_zero given then throw "Commission rate is required"
    else
      let commissionRate := parseFloat given in
      if (is_nan commissionRate || PrimFloat.ltb commissionRate 0
          || PrimFloat.ltb 1 commissionRate)%bool
      then throw "Commission rate must be a number between 0 and 1"
      else
        t ← now;
        Return (Change [("commission_rate", Num commissionRate);
                        ("updated_at", Str (iso t))] None)
  else if is_text action "update" then
    t ← now;
    Return (Change (set_member "updated_at" (Str (iso t)) data) None)
  else throw ("Invalid action: " +:+ to_string action).

(** The request that reads the partner. *)
Definition fetch_partner (partnerId : value) : request :=
  Request "partners" (Select "*" false) [Eq "id" partnerId] None None true.

(** The request that writes the partner. *)
Definition update_partner (partnerId : value) (updateData : members) : request :=
  Request "partners" (Update updateData (Some "*")) [Eq "id" partnerId] None None true.

(** [async managePartners(action, partnerId, data = {})] *)
Definition managePartners (action partnerId : value) (data : members) : proc value :=
  console_log "AdminService - managePartners called:"
    [PValue (Obj [("action", action); ("partnerId", partnerId); ("data", Obj data)])];;
  try_catch
    (if negb (truthy partnerId) then throw "Partner ID is required"
     else if negb (is_valid_action action) then
       throw ("Invalid action: " +:+ to_string action +:+ ". Valid actions are: " +:+
              validActions_text)
     else
       fetched ← call (fetch_partner partnerId);
       match error fetched with
       | Some fetchError =>
           console_error "Error fetching partner:" [PStoreError fetchError];;
           throw ("Partner not found: " +:+ pg_message fetchError)
       | None =>
           let partner := Node.data fetched in
           if negb (truthy partner) then throw "Partner not found"
           else
             console_log ("Current partner status: " +:+ to_string (get partner "status")) [];;
             todo ← prepare action partner data;
             match todo with
             | Already result => Return result
             | Change updateData emailData =>
                 console_log "Updating partner with data:" [PValue (Obj updateData)];;
                 updated ← call (update_partner partnerId updateData);
                 match error updated with
                 | Some updateError =>
                     console_error "Database update error:" [PStoreError updateError];;
                     throw ("Failed to update partner: " +:+ pg_message updateError)
                 | None =>
                     let updatedPartner := Node.data updated in
                     if negb (truthy updatedPartner) then
                       console_error "No data returned from update" [];;
                       throw "Update failed: No data returned"
                     else
                       console_log "Partner updated successfully:"
                         [PValue (Obj [("id", get updatedPartner "id");
                                       ("oldStatus", get partner "status");
                                       ("newStatus", get updatedPartner "status");
                                       ("updatedAt", get updatedPartner "updated_at")])];;
                       match emailData with
                       | Some m =>
                           try_catch
                             (console_log ("Sending " +:+ to_string action +:+ " email to:")
                                [PValue (to m)];;
                              rejected ← Do (SendEmail m) Return;
                              match rejected with
                              | Some e => Throw e
                              | None =>
                                  console_log
                                    ("Email sent successfully for " +:+ to_string action) []
                              end)
                             (fun emailError =>
                                console_error
                                  ("Email sending failed for " +:+ to_string action +:+ ":")
                                  [PError emailError])
                       | None => Return tt
                       end;;
                       Return (Obj [("message",
                                     Str ("Partner " +:+ to_string action +:+ " successful"));
                                    ("partner", updatedPartner);
                                    ("previousStatus", get partner "status");
                                    ("newStatus", get updatedPartner "status")])
                 end
             end
       end)
    (fun error =>
       console_error ("AdminService - Error in " +:+ to_string action +:+ " partner:")
         [PError error];;
       if includes "not found" (JS.message error) then
         throw ("Partner with ID " +:+ to_string partnerId +:+ " not found")
       else if (includes "duplicate" (JS.message error)
                || includes "unique" (JS.message error))%bool then
         throw "Partner update failed due to data conflict"
       else Throw error).

(** *** Users *)

(** The request that writes a user. *)
Definition update_user (userId : value) (patch : members) : request :=
  Request "users" (Update patch None) [Eq "id" userId] None None false.

(** [async manageUsers(action, userId, data = {})] *)
Definition manageUsers (action userId : value) (data : members) : proc value :=
  try_catch
    ((if is_text action "suspend" then
        t ← now;
        call (update_user userId [("status", Str "suspended");
                                   ("suspended_at", Str (iso t))]);;
        Return tt
      else if is_text action "activate" then
        call (update_user userId [("status", Str "active"); ("suspended_at", Null)]);;
        Return tt
      else if is_text action "update" then
        t ← now;
        call (update_user userId (set_member "updated_at" (Str (iso t)) data));;
        Return tt
      else if is_text action "delete" then
        t1 ← now;
        t2 ← now;
        call (update_user userId
                [("status", Str "deleted");
                 ("email", Str ("deleted_" +:+ integer_to_string (millis t1)
                                +:+ "@deleted.com"));
                 ("deleted_at", Str (iso t2))]);;
        Return tt
      else Return tt);;
     Return (Obj [("message", Str ("User " +:+ to_string action +:+ " successful"))]))
    (fun error => Throw error).

(** *** Refunds *)

Definition fetch_refund (refundId : value) : request :=
  Request "refunds"
    (Select "*,bookings(booking_reference,total_amount),users(email,first_name,last_name)"
       false)
    [Eq "id" refundId] None None true.

(** [supabase.rpc('add_to_wallet', { user_id, amount })] *)
Definition add_to_wallet (refund : value) : request :=
  Request "add_to_wallet"
    (Rpc [("user_id", get refund "user_id"); ("amount", get refund "amount")])
    [] None None false.

Definition settle_refund (refundId : value) (status : string) (adminId : value)
    (t : instant) : request :=
  Request "refunds"
    (Update [("status", Str status); ("processed_by", adminId);
             ("processed_at", Str (iso t))] None)
    [Eq "id" refundId] None None false.

(** The e-mail about a refund, to [refund.users.email]. *)
Definition refund_email (refund : value) (subject template : string) : email :=
  Email (get (get refund "users") "email") subject template
    [("userName", get (get refund "users") "first_name");
     ("amount", get refund "amount");
     ("bookingReference", get_optional (get refund "bookings") "booking_reference")].

(** [await sendEmail(m)], a rejection thrown on. *)
Definition send (m : email) : proc unit :=
  rejected ← Do (SendEmail m) Return;
  match rejected with
  | Some e => Throw e
  | None => Return tt
  end.

(** [async processRefundRequest(refundId, action, adminId)] *)
Definition processRefundRequest (refundId action adminId : value) : proc value :=
  try_catch
    (fetched ← call (fetch_refund refundId);
     let refund := Node.data fetched in
     if (match error fetched with Some _ => true | None => false end
         || negb (truthy refund))%bool then
       throw "Refund request not found"
     else
       (if is_text action "approve" then
          call (add_to_wallet refund);;
          t ← now;
          call (settle_refund refundId "approved" adminId t);;
          if truthy (get refund "users") then
            send (refund_email refund "Refund Approved - Elevatio" "refund-approval")
          else Return tt
        else
          t ← now;
          call (settle_refund refundId "rejected" adminId t);;
          if truthy (get refund "users") then
            send (refund_email refund "Refund Request Update - Elevatio" "refund-rejection")
          else Return tt);;
       Return (Obj [("message", Str ("Refund " +:+ to_string action +:+ "d successfully"))]))
    (fun error => Throw error).

(** *** Promo codes *)

(** [promoData.k]: a [TypeError] when [promoData] is [null]. *)
Definition promo_member (promoData : option members) (k : string) : proc value :=
  match promoData with
  | Some ms => Return (get (Obj ms) k)
  | None => Throw (TypeError ("Cannot read properties of null (reading '" +:+ k +:+ "')"))
  end.

(** [async managePromoCodes(action, promoData, promoId = null)];
    [promoData] is an object or [null]. *)
Definition managePromoCodes (action : value) (promoData : option members) (promoId : value)
    : proc value :=
  let promoId := match promoId with Undefined => Null | _ => promoId end in
  try_catch
    (if is_text action "create" then
       code ← promo_member promoData "code";
       discountType ← promo_member promoData "discountType";
       discountValue ← promo_member promoData "discountValue";
       maxDiscount ← promo_member promoData "maxDiscount";
       usageLimit ← promo_member promoData "usageLimit";
       expiryDate ← promo_member promoData "expiryDate";
       adminId ← promo_member promoData "adminId";
       created ← call (Request "promo_codes"
                         (Insert [("code", code); ("discount_type", discountType);
                                  ("discount_value", discountValue);
                                  ("max_discount", maxDiscount);
                                  ("usage_limit", usageLimit);
                                  ("expiry_date", expiryDate);
                                  ("status", Str "active");
                                  ("created_by", adminId)] (Some "*"))
                         [] None None true);
       match error created with
       | Some createError => throw_store createError
       | None => Return (Obj [("promo", Node.data created);
                              ("message", Str "Promo code created successfully")])
       end
     else if is_text action "update" then
       t ← now;
       updated ← call (Request "promo_codes"
                         (Update (set_member "updated_at" (Str (iso t))
                                    (default [] promoData)) (Some "*"))
                         [Eq "id" promoId] None None true);
       match error updated with
       | Some updateError => throw_store updateError
       | None => Return (Obj [("promo", Node.data updated);
                              ("message", Str "Promo code updated successfully")])
       end
     else if is_text action "deactivate" then
       call (Request "promo_codes" (Update [("status", Str "inactive")] None)
               [Eq "id" promoId] None None false);;
       Return (Obj [("message", Str "Promo code deactivated successfully")])
     else if is_text action "activate" then
       call (Request "promo_codes" (Update [("status", Str "active")] None)
               [Eq "id" promoId] None None false);;
       Return (Obj [("message", Str "Promo code activated successfully")])
     else throw "Invalid action")
    (fun error => Throw error).

(** *** Booking details *)

Definition fetch_booking (bookingId : value) : request :=
  Request "bookings"
    (Select ("*,users(id,email,first_name,last_name,phone,created_at)," +:+
             "partners(id,business_name,email,phone,address),passengers(*)," +:+
             "payments(id,amount,status,payment_method,transaction_id,processed_at," +:+
             "created_at,updated_at)," +:+
             "seat_selections(id,seat_number,seat_class,extra_cost,passenger_id)," +:+
             "baggage_selections(id,baggage_type,weight_kg,extra_cost,passenger_id)")
       false)
    [Eq "id" bookingId] None None true.

(** [async getBookingDetails(bookingId)] *)
Definition getBookingDetails (bookingId : value) : proc value :=
  try_catch
    (fetched ← call (fetch_booking bookingId);
     match error fetched with
     | Some e =>
         if String.eqb (code e) "PGRST116" then throw "Booking not found"
         else throw_store e
     | None => Return (Node.data fetched)
     end)
    (fun error =>
       console_error "Error in getBookingDetails service:" [PError error];;
       Throw error).

End Admin.

(* ===================================================================== *)
(** ** The controller, continued *)
(* ===================================================================== *)

Module Controller.
Import Std Node.

(** The parts of the request the handlers read: the route parameters, the
    query string, the JSON body as the body parser leaves it (an object)
    and [req.user]. *)
Record http_request : Type := HttpRequest {
  params : members;
  query : members;
  body : members;
  user : value
}.

(** [res.status(statusCode).json(json)]; [res.json(json)] is status 200. *)
Record response : Type := Response { statusCode : Z; json : value }.

(** [o.k] with a [TypeError] when [o] is [null] or [undefined]. *)
Definition member (o : value) (k : string) : proc value :=
  match o with
  | Undefined | Null =>
      Throw (TypeError ("Cannot read properties of " +:+ to_string o +:+
                        " (reading '" +:+ k +:+ "')"))
  | _ => Return (get o k)
  end.

(** [res.status(400).json({ error: error.message })] *)
Definition failure (error : JS.error) : proc response :=
  Return (Response 400 (Obj [("error", Str (JS.message error))])).

(** [async manageUsers(req, res)] *)
Definition manageUsers (req : http_request) : proc response :=
  try_catch
    (let action := get (Obj (params req)) "action" in
     let userId := get (Obj (params req)) "userId" in
     result ← Admin.manageUsers action userId (body req);
     Return (Response 200 result))
    failure.

(** [async managePartners(req, res)] *)
Definition managePartners (req : http_request) : proc response :=
  try_catch
    (let action := get (Obj (params req)) "action" in
     let partnerId := get (Obj (params req)) "partnerId" in
     console_log "Admin Controller - managePartners called:"
       [PValue (Obj [("action", action); ("partnerId", partnerId);
                     ("body", Obj (body req))])];;
     if negb (Admin.is_valid_action action) then
       Return (Response 400
                 (Obj [("error", Str "Invalid action");
                       ("message",
                        Str ("Action must be one of: " +:+ Admin.validActions_text))]))
     else if negb (truthy partnerId) then
       Return (Response 400 (Obj [("error", Str "Missing partner ID");
                                  ("message", Str "Partner ID is required")]))
     else
       result ← Admin.managePartners action partnerId (body req);
       console_log "Admin Controller - Partner action completed:"
         [PValue (Obj [("action", action); ("partnerId", partnerId);
                       ("result", get result "message")])];;
       Return (Response 200 result))
    (fun error =>
       console_error "Admin Controller - Error managing partner:" [PError error];;
       Return (Response 400
                 (Obj [("error", Str (JS.message error));
                       ("details",
                        Str ("Failed to " +:+ to_string (get (Obj (params req)) "action")
                             +:+ " partner"))]))).

(** [async getBookingDetails(req, res)] *)
Definition getBookingDetails (req : http_request) : proc response :=
  console_log "AdminController - getBookingDetails called:" [PValue (Obj (params req))];;
  try_catch
    (let bookingId := get (Obj (params req)) "bookingId" in
     if negb (truthy bookingId) then
       Return (Response 400 (Obj [("error", Str "Booking ID is required")]))
     else
       booking ← Admin.getBookingDetails bookingId;
       console_log "AdminController - getBookingDetails successful" [];;
       Return (Response 200 booking))
    (fun error =>
       console_error "AdminController - Error in getBookingDetails:" [PError error];;
       if includes "not found" (JS.message error) then
         t ← now;
         Return (Response 404 (Obj [("error", Str "Booking not found");
                                    ("timestamp", Str (iso t))]))
       else
         t ← now;
         Return (Response 400 (Obj [("error", Str (JS.message error));
                                    ("timestamp", Str (iso t))]))).

(** [async processRefund(req, res)] *)
Definition processRefund (req : http_request) : proc response :=
  try_catch
    (let refundId := get (Obj (params req)) "refundId" in
     let action := get (Obj (params req)) "action" in
     adminId ← member (user req) "id";
     result ← Admin.processRefundRequest refundId action adminId;
     Return (Response 200 result))
    failure.

(** [async managePromoCodes(req, res)] *)
Definition managePromoCodes (req : http_request) : proc response :=
  try_catch
    (let action := get (Obj (params req)) "action" in
     let promoId := get (Obj (query req)) "promoId" in
     if Admin.is_text action "create" then
       result ← Admin.managePromoCodes (Str "create") (Some (body req)) Undefined;
       Return (Response 200 result)
     else if Admin.is_text action "update" then
       result ← Admin.managePromoCodes (Str "update") (Some (body req)) promoId;
       Return (Response 200 result)
     else if Admin.is_text action "activate" then
       result ← Admin.managePromoCodes (Str "activate") None promoId;
       Return (Response 200 result)
     else if Admin.is_text action "deactivate" then
       result ← Admin.managePromoCodes (Str "deactivate") None promoId;
       Return (Response 200 result)
     else Return (Response 400 (Obj [("error", Str "Invalid action")])))
    failure.

End Controller.

(* ===================================================================== *)
(** ** Vocabulary of the further statements *)
(* ===================================================================== *)

Module Terms.
Import Std Node.

(** The outcome of a run and the world it leaves. *)
Definition result_of {A : Type} (p : proc A) (w : world) : outcome A := fst (run p w).
Definition world_after {A : Type} (p : proc A) (w : world) : world := snd (run p w).

(** The requests a run made: those of the world it leaves, after the ones
    made before. *)
Definition asked {A : Type} (p : proc A) (w : world) : list request :=
  drop (length (sent w)) (sent (world_after p w)).

(** The e-mails a run handed over. *)
Definition mailed {A : Type} (p : proc A) (w : world) : list email :=
  drop (length (outbox w)) (outbox (world_after p w)).

(** The same world with another e-mail service. *)
Definition with_sendEmail (f : email -> option JS.error) (w : world) : world :=
  World (answers w) (sent w) f (outbox w) (clock w) (ticks w) (end_of_day w) (console w).

(** The filters [getAllPayouts] can read: an end date, if any, that is a
    date, and a search term, if any, that is a text. *)
Definition readable (w : world) (filters : members) : bool :=
  let endDate := get (Obj filters) "endDate" in
  let search := get (Obj filters) "search" in
  (negb (truthy endDate) || bool_decide (is_Some (end_of_day w endDate)))
  && (negb (truthy search) || match search with Str _ => true | _ => false end).

(** An answer of the store that carries a row: no error, and data. *)
Definition found (a : reply) : bool :=
  match error a with
  | Some _ => false
  | None => truthy (data a)
  end.

(** The commission rate a request writes, if it writes one, is a number
    from 0 to 1. *)
Definition commission_within_bounds (r : request) : bool :=
  match action r with
  | Update patch _ =>
      match lookup_member "commission_rate" patch with
      | Some (Num x) => PrimFloat.leb 0 x && PrimFloat.leb x 1
      | Some _ => false
      | None => true
      end
  | _ => true
  end.

(** The action and the status for which [managePartners] has nothing to
    do, and the word of its message. *)
Definition settled : list (string * string * string) :=
  [("approve", "approved", "approved"); ("reject", "rejected", "rejected");
   ("suspend", "suspended", "suspended"); ("activate", "approved", "active")].

(** The e-mails of [managePartners]. *)
Definition approval_email (partner : value) : email :=
  Email (get partner "email") "Partner Application Approved - Elevatio" "partner-approval"
    [("businessName", get partner "business_name");
     ("contactPerson", get partner "contact_person")].

Definition rejection_email (partner reason : value) : email :=
  Email (get partner "email") "Partner Application Update - Elevatio" "partner-rejection"
    [("businessName", get partner "business_name");
     ("contactPerson", get partner "contact_person");
     ("reason", reason)].

(** What the e-mail service takes of a message. *)
Definition delivered (w : world) (m : email) : list email :=
  match sendEmail w m with
  | Some _ => []
  | None => [m]
  end.

(** A request that updates the user [userId], and does nothing else. *)
Definition is_user_update (userId : value) (r : request) : Prop :=
  target r = "users" /\ filters r = [Eq "id" userId] /\
  exists patch, action r = Update patch None.

(** The four actions [manageUsers] knows. *)
Definition is_user_action (action : value) : bool :=
  existsb (Admin.is_text action) ["suspend"; "activate"; "update"; "delete"].

(** What becomes of a run that ends by handing [m] to the e-mail service
    when [wanted], and returns [v] if that goes well. *)
Definition after_mail (w : world) (wanted : bool) (m : email) (v : value) : outcome value :=
  if wanted then
    match sendEmail w m with
    | Some e => Thrown e
    | None => Returned v
    end
  else Returned v.

(** [promoId = null] for a missing argument. *)
Definition or_null (v : value) : value :=
  match v with
  | Undefined => Null
  | _ => v
  end.

(** Two worlds that differ at most in the e-mail service, the e-mails it
    took and the console. *)
Definition same_store (w1 w2 : world) : Prop :=
  answers w1 = answers w2 /\ sent w1 = sent w2 /\ clock w1 = clock w2 /\
  ticks w1 = ticks w2 /\ end_of_day w1 = end_of_day w2.

(** A run on which the e-mail service has no influence: from two such
    worlds it ends the same way, in two such worlds. *)
Definition mail_blind {A : Type} (p : proc A) : Prop :=
  forall w1 w2, same_store w1 w2 ->
    fst (run p w1) = fst (run p w2) /\ same_store (snd (run p w1)) (snd (run p w2)).

(** A run that returns and leaves the store, the clock and the requests
    as they were. *)
Definition inert (p : proc unit) : Prop :=
  forall w, fst (run p w) = Returned tt /\ same_store (snd (run p w)) w.

(** A request that writes rows. *)
Definition is_write (r : request) : bool :=
  match action r with
  | Select _ _ => false
  | _ => true
  end.

(** *** Examples *)

Definition example_instant : instant := Instant "2025-01-01T00:00:00.000Z" 1735689600000.

(** A world with the given answers of the store, an e-mail service that
    takes every message, and nothing done yet. *)
Definition example_world (answers : list reply) : world :=
  World answers [] (fun _ => None) [] (fun _ => example_instant) 0 (fun _ => None) [].

(** The same with an e-mail service that rejects every message. *)
Definition mail_down : JS.error := JS.Error "SMTP connection refused".

Definition world_without_mail (answers : list reply) : world :=
  World answers [] (fun _ => Some mail_down) [] (fun _ => example_instant) 0
    (fun _ => None) [].

Definition store_down : pg_error := PgError "08006" "connection failure".

Definition example_partner (status : string) : value :=
  Obj [("id", Str "p-1"); ("status", Str status); ("email", Str "ops@acme.test");
       ("business_name", Str "Acme Travel"); ("contact_person", Str "A. Jones")].

Definition example_refund : value :=
  Obj [("id", Str "r-1"); ("user_id", Str "u-1"); ("amount", Num 50);
       ("status", Str "approved");
       ("users", Obj [("email", Str "amy@mail.test"); ("first_name", Str "Amy")]);
       ("bookings", Obj [("booking_reference", Str "EL-1001")])].

End Terms.

(* ===================================================================== *)
(** ** Facts about the built-ins *)
(* ===================================================================== *)

Section Builtins.

(** A text that starts with none of the characters a number can start
    with reads as NaN. *)
Lemma parseFloat_of_text_without_number (c : ascii) (s : string) :
  JS.may_start_number c = false ->
  JS.parseFloat (JS.Str (String c s)) = nan.
Proof.
  destruct c as [[] [] [] [] [] [] [] []]; intros H; try discriminate H;
    destruct s as [|c2 [|c3 s]]; reflexivity.
Qed.

Example parseFloat_examples :
  JS.parseFloat (JS.Str "250.00") = 250%float /\
  JS.parseFloat (JS.Str "  -12.5e1 USD") = (-125)%float /\
  JS.parseFloat (JS.Str (String (ascii_of_nat 194) (String (ascii_of_nat 160) "250")))
    = 250%float /\
  JS.parseFloat
    (JS.Str (String (ascii_of_nat 227) (String (ascii_of_nat 128) (String (ascii_of_nat 128)
               (String (ascii_of_nat 239) (String (ascii_of_nat 187)
                  (String (ascii_of_nat 191) " 7.5 ")))))))
    = 7.5%float /\
  JS.parseFloat (JS.Str (String (ascii_of_nat 194) (String (ascii_of_nat 161) "250"))) = nan /\
  JS.parseFloat (JS.Str ".5") = 0.5%float /\
  JS.parseFloat (JS.Str "0.1") = 0.1%float /\
  JS.parseFloat (JS.Str "9007199254740993") = 9007199254740992%float /\
  JS.parseFloat (JS.Str "1e400") = infinity /\
  JS.parseFloat (JS.Str "") = nan /\
  JS.parseFloat (JS.Str "abc") = nan /\
  JS.parseFloat JS.Null = nan /\
  JS.parseFloat JS.Undefined = nan /\
  JS.parseFloat (JS.Num 250) = 250%float.
Proof. vm_compute. repeat split. Qed.

Example toFixed2_examples :
  JS.toFixed2 250 = "250.00" /\
  JS.toFixed2 0 = "0.00" /\
  JS.toFixed2 1.005 = "1.00" /\
  JS.toFixed2 0.125 = "0.13" /\
  JS.toFixed2 (-0.001) = "-0.00" /\
  JS.toFixed2 123456789.125 = "123456789.13" /\
  JS.toFixed2 1e21 = "1e+21" /\
  JS.toFixed2 1.2345e25 = "1.2345e+25" /\
  JS.toFixed2 infinity = "Infinity" /\
  JS.toFixed2 nan = "NaN".
Proof. vm_compute. repeat split. Qed.

End Builtins.

(* ===================================================================== *)
(** ** Facts about binary64 arithmetic *)
(* ===================================================================== *)

Section Binary64.
Import Ledger.

Lemma SFcompare_antisym (x y : spec_float) :
  SFcompare y x = match SFcompare x y with Some c => Some (CompOpp c) | None => None end.
Proof.
  destruct x as [[]|[]| |[] mx ex], y as [[]|[]| |[] my ey]; simpl; try reflexivity.
  - rewrite (Z.compare_antisym ex ey). destruct (ex ?= ey); simpl; try reflexivity.
    rewrite (Pos.compare_cont_antisym mx my Eq). simpl. reflexivity.
  - rewrite (Z.compare_antisym ex ey). destruct (ex ?= ey); simpl; try reflexivity.
    rewrite (Pos.compare_cont_antisym mx my Eq). simpl.  reflexivity.
Qed.

Lemma digits2_pos_bounds (m : positive) :
  2 ^ (Zpos (digits2_pos m) - 1) <= Zpos m < 2 ^ Zpos (digits2_pos m).
Proof.
  induction m as [m IH|m IH|]; simpl digits2_pos.
  - rewrite Pos2Z.inj_succ. replace (Z.succ (Z.pos (digits2_pos m)) - 1) with (Z.succ (Z.pos (digits2_pos m) - 1)) by lia.
    rewrite !Z.pow_succ_r by lia. lia.
  - rewrite Pos2Z.inj_succ. replace (Z.succ (Z.pos (digits2_pos m)) - 1) with (Z.succ (Z.pos (digits2_pos m) - 1)) by lia.
    rewrite !Z.pow_succ_r by lia. lia.
  - simpl. lia.
Qed.

Lemma iter_xO (m d : positive) : Zpos (Pos.iter xO m d) = Zpos m * 2 ^ Zpos d.
Proof.
  induction d as [|d IH] using Pos.peano_ind.
  - simpl. lia.
  - rewrite Pos.iter_succ, Pos2Z.inj_succ, Z.pow_succ_r by lia. rewrite Pos2Z.inj_xO, IH. lia.
Qed.

Lemma shl_align_fst (m : positive) (e e' : Z) :
  e' <= e -> Zpos (fst (shl_align m e e')) = Zpos m * 2 ^ (e - e').
Proof.
  intros H. unfold shl_align. destruct (e' - e) as [|d|d] eqn:E.
  - replace (e - e') with 0 by lia. simpl. lia.
  - lia.
  - simpl. rewrite iter_xO. replace (e - e') with (Zpos d) by lia. reflexivity.
Qed.

(** Of two canonical mantissas, the one with the smaller exponent is the smaller number. *)
Lemma bounded_lt (m1 m2 : positive) (e1 e2 : Z) :
  bounded prec emax m1 e1 = true -> bounded prec emax m2 e2 = true ->
  e1 < e2 -> Zpos m1 < Zpos m2 * 2 ^ (e2 - e1).
Proof.
  unfold bounded, canonical_mantissa, fexp, emin, prec, emax.
  intros H1 H2 Hlt.
  apply andb_prop in H1 as [H1 _]. apply andb_prop in H2 as [H2 _].
  apply Z.eqb_eq in H1, H2.
  pose proof (digits2_pos_bounds m1) as [_ B1].
  pose proof (digits2_pos_bounds m2) as [B2 _].
  assert (D2 : Zpos (digits2_pos m2) = 53) by lia.
  assert (D1 : Zpos (digits2_pos m1) <= 53) by lia.
  rewrite D2 in B2.
  assert (Zpos m1 < 2 ^ 53).
  { eapply Z.lt_le_trans; [exact B1|]. apply Z.pow_le_mono_r; lia. }
  assert (2 ^ 1 <= 2 ^ (e2 - e1)) by (apply Z.pow_le_mono_r; lia).
  change (2 ^ (53 - 1)) with 4503599627370496 in B2.
  change (2 ^ 53) with 9007199254740992 in H.
  change (2 ^ 1) with 2 in H0.
  nia.
Qed.


Lemma SFleb_zero (x : spec_float) : SFleb (S754_zero false) x = nonneg x.
Proof. destruct x as [[]|[]| |[] m e]; reflexivity. Qed.

Lemma iter_pos_invariant {A : Type} (P : A -> Prop) (f : A -> A) :
  (forall x, P x -> P (f x)) -> forall p x, P x -> P (SpecFloat.iter_pos f p x).
Proof.
  intros Hf. induction p as [p IH|p IH|]; intros x Hx; simpl; auto.
Qed.

Lemma shr_1_nonneg (mrs : shr_record) : 0 <= shr_m mrs -> 0 <= shr_m (shr_1 mrs).
Proof.
  destruct mrs as [m r s]. destruct m as [|[p|p|]|p]; simpl; lia.
Qed.

Lemma shr_fexp_nonneg (m e : Z) (l : location) :
  0 <= m -> 0 <= shr_m (fst (shr_fexp prec emax m e l)).
Proof.
  intros Hm. unfold shr_fexp, shr.
  assert (H0 : 0 <= shr_m (shr_record_of_loc m l)) by (destruct l as [|[]]; exact Hm).
  destruct (fexp prec emax (Zdigits2 m + e) - e) as [|p|p]; simpl; auto.
  apply (iter_pos_invariant (fun r => 0 <= shr_m r)); auto using shr_1_nonneg.
Qed.

Lemma round_nearest_even_nonneg (m : Z) (l : location) :
  0 <= m -> 0 <= round_nearest_even m l.
Proof.
  intros Hm. destruct l as [|[]]; simpl; try lia. destruct (Z.even m); lia.
Qed.

Lemma binary_round_aux_nonneg (m e : Z) (l : location) :
  0 <= m -> nonneg (binary_round_aux prec emax false m e l) = true.
Proof.
  intros Hm. unfold binary_round_aux.
  pose proof (shr_fexp_nonneg m e l Hm) as H1.
  destruct (shr_fexp prec emax m e l) as [mrs' e'].
  simpl in H1.
  pose proof (shr_fexp_nonneg _ e' loc_Exact
                (round_nearest_even_nonneg _ (loc_of_shr_record mrs') H1)) as H2.
  destruct (shr_fexp prec emax _ e' loc_Exact) as [mrs'' e''].
  simpl in H2.
  destruct (shr_m mrs'') as [|p|p]; try reflexivity; try lia.
  destruct (e'' <=? emax - prec); reflexivity.
Qed.

Lemma binary_normalize_nonneg (m e : Z) :
  0 <= m -> nonneg (binary_normalize prec emax m e false) = true.
Proof.
  intros Hm. destruct m as [|p|p]; try reflexivity; try lia.
  unfold binary_normalize, binary_round.
  destruct (shl_align p e _) as [mz ez].
  apply binary_round_aux_nonneg. lia.
Qed.

Lemma compare_cont_cases (m1 m2 : positive) :
  match Pos.compare_cont Eq m1 m2 with
  | Eq => Zpos m1 = Zpos m2
  | Lt => Zpos m1 < Zpos m2
  | Gt => Zpos m2 < Zpos m1
  end.
Proof.
  change (Pos.compare_cont Eq m1 m2) with (Pos.compare m1 m2).
  destruct (Pos.compare_spec m1 m2); lia.
Qed.

(** [x - y] is not negative when [x < y] is false, [x] is a number and [y] is finite. *)
Lemma SFsub_nonneg (x y : spec_float) :
  valid_binary x = true -> valid_binary y = true ->
  x <> S754_nan ->
  match y with S754_zero _ | S754_finite _ _ _ => True | _ => False end ->
  SFltb x y = false ->
  nonneg (SFsub prec emax x y) = true.
Proof.
  intros Vx Vy Nx Fy Hlt. unfold SFltb in Hlt.
  destruct y as [sy| | |sy my ey]; try contradiction;
    destruct x as [sx|sx| |sx mx ex]; try congruence.
  - destruct sx, sy; reflexivity.
  - destruct sx; simpl in *; congruence.
  - destruct sx; simpl in *; congruence.
  - destruct sy; simpl in *; congruence.
  - destruct sx; simpl in *; congruence.
  - simpl in Vx, Vy. unfold SFsub. apply binary_normalize_nonneg.
    rewrite !shl_align_fst by lia.
    pose proof (compare_cont_cases mx my) as Hm.
    destruct sx, sy; simpl in Hlt; unfold cond_Zopp; try congruence.
    + (* both negative *)
      destruct (Z.compare_spec ex ey) as [C|C|C]; try congruence.
      * subst ey. rewrite Z.min_id, Z.sub_diag, Z.pow_0_r.
        destruct (Pos.compare_cont Eq mx my); simpl in Hlt; try congruence; lia.
      * pose proof (bounded_lt _ _ _ _ Vx Vy C).
        rewrite Z.min_l by lia. rewrite Z.sub_diag, Z.pow_0_r. lia.
    + (* x positive, y negative *)
      assert (0 < 2 ^ (ex - Z.min ex ey)) by (apply Z.pow_pos_nonneg; lia).
      assert (0 < 2 ^ (ey - Z.min ex ey)) by (apply Z.pow_pos_nonneg; lia).
      nia.
    + (* both positive *)
      destruct (Z.compare_spec ex ey) as [C|C|C]; try congruence.
      * subst ey. rewrite Z.min_id, Z.sub_diag, Z.pow_0_r.
        destruct (Pos.compare_cont Eq mx my); simpl in Hlt; try congruence; lia.
      * pose proof (bounded_lt _ _ _ _ Vy Vx C).
        rewrite Z.min_r by lia. rewrite Z.sub_diag, Z.pow_0_r. lia.
Qed.


Lemma is_nan_spec (x : float) : is_nan x = false -> Prim2SF x <> S754_nan.
Proof.
  unfold is_nan. rewrite FloatAxioms.eqb_spec. intros H E. rewrite E in H. discriminate.
Qed.

Lemma sub_nonneg (x y : float) :
  is_nan x = false -> JS.isFinite y = true -> PrimFloat.ltb x y = false ->
  PrimFloat.leb zero (PrimFloat.sub x y) = true.
Proof.
  intros Nx Fy Hlt. rewrite FloatAxioms.leb_spec, FloatAxioms.sub_spec.
  change (Prim2SF zero) with (S754_zero false). rewrite SFleb_zero.
  rewrite FloatAxioms.ltb_spec in Hlt. unfold JS.isFinite in Fy.
  apply SFsub_nonneg; auto using Prim2SF_valid, is_nan_spec.
  destruct (Prim2SF y); try discriminate; exact I.
Qed.

Lemma leb_not_ltb (x y : float) :
  PrimFloat.leb x y = true -> PrimFloat.ltb y x = false.
Proof.
  rewrite FloatAxioms.leb_spec, FloatAxioms.ltb_spec. unfold SFleb, SFltb.
  rewrite (SFcompare_antisym (Prim2SF x) (Prim2SF y)).
  destruct (SFcompare (Prim2SF x) (Prim2SF y)) as [[]|]; simpl; congruence.
Qed.

Lemma or_zero_is_number (x : float) : is_nan (JS.or_zero x) = false.
Proof.
  unfold JS.or_zero. destruct (is_nan x) eqn:E; simpl; [reflexivity|].
  destruct (is_zero x); [reflexivity|exact E].
Qed.


End Binary64.

(* ===================================================================== *)
(** ** Facts about the store and about running *)
(* ===================================================================== *)

Section Running.
Import Supabase Async Ledger.

Lemma select_columns_true (n : partner) : select_columns true n = n.
Proof. destruct n; reflexivity. Qed.

Lemma exec_select (b : bool) (id : string) (d : db) (p : payout) (n : partner) :
  payouts d !! id = Some p -> partners d !! partner_id p = Some n ->
  exec (SelectPayoutWithPartner b id) d = (Reply (Some (p, select_columns b n)) None, d).
Proof. intros Hp Hn. unfold exec. rewrite Hp, Hn. reflexivity. Qed.

Lemma send_request_ok q d fs s es ad ob ck tk co :
  reliable 1 fs = true ->
  send_request q (World d fs s es ad ob ck tk co) =
  (fst (exec q d), World (snd (exec q d)) (tail fs) (s ++ [q]) es ad ob ck tk co).
Proof.
  intros H. unfold send_request.
  destruct fs as [|[e|] fs]; simpl in *; try discriminate; destruct (exec q d); reflexivity.
Qed.

Lemma reliable_tail (n : nat) (fs : list (option store_error)) :
  reliable (S n) fs = true -> reliable n (tail fs) = true.
Proof. destruct fs as [|[e|] fs]; simpl; try discriminate; auto. destruct n; auto. Qed.

Lemma reliable_le (n m : nat) (fs : list (option store_error)) :
  (n <= m)%nat -> reliable m fs = true -> reliable n fs = true.
Proof.
  revert m fs. induction n as [|n IH]; intros m fs Hle H; [reflexivity|].
  destruct m as [|m]; [lia|].
  destruct fs as [|[e|] fs]; simpl in *; try discriminate; auto.
  apply (IH m); [lia|assumption].
Qed.

(** A write filtered by [id] alone changes the row of that key, whatever
    the row holds. *)
Lemma update_payout_by_id sets (id : string) (m : gmap string payout) :
  map_imap (update_payout sets [PayoutIdEq id]) m =
  alter (fun p => fold_left set_payout sets p) id m.
Proof.
  apply map_eq. intros i. rewrite map_lookup_imap, lookup_alter.
  unfold update_payout. case_decide as E.
  - subst i. destruct (m !! id) as [p|]; simpl; [|reflexivity].
    rewrite String.eqb_refl. reflexivity.
  - destruct (m !! i) as [p|]; simpl; [|reflexivity].
    apply String.eqb_neq in E. rewrite String.eqb_sym, E. reflexivity.
Qed.

Lemma update_partner_by_id sets (id : string) (m : gmap string partner) :
  map_imap (update_partner sets [PartnerIdEq id]) m =
  alter (fun p => fold_left set_partner sets p) id m.
Proof.
  apply map_eq. intros i. rewrite map_lookup_imap, lookup_alter.
  unfold update_partner. case_decide as E.
  - subst i. destruct (m !! id) as [p|]; simpl; [|reflexivity].
    rewrite String.eqb_refl. reflexivity.
  - destruct (m !! i) as [p|]; simpl; [|reflexivity].
    apply String.eqb_neq in E. rewrite String.eqb_sym, E. reflexivity.
Qed.

Lemma eqb_pending (s : string) : s <> "pending" -> String.eqb s "pending" = false.
Proof. intros H. apply String.eqb_neq. exact H. Qed.

End Running.

(** One step of symbolic execution: the code and the synchronous effects
    unfold, requests and the tables do not. *)
Ltac step :=
  cbn [Async.run Async.bind Async.try_catch mbind mret Async.async_bind Async.async_ret
       Async.request Async.now Async.console_log Async.console_warn Async.console_error
       Async.perform Supabase.failed Supabase.no_content Supabase.error Supabase.data fst snd
       AdminService.approvePayout AdminService.rejectPayout
       AdminService.sendPayoutApprovalEmail AdminService.sendPayoutRejectionEmail
       AdminController.approvePayout AdminController.params_payoutId
       Async.database Supabase.payouts Supabase.partners Async.faults Async.sent
       Async.emailService Async.adminId Async.outbox Async.clock Async.ticks
       Async.console Async.with_emailService negb].

(** A request that reaches the tables. *)
Ltac send :=
  rewrite send_request_ok by assumption;
  cbn [Supabase.exec fst snd Supabase.payouts Supabase.partners Supabase.no_content
       Supabase.error Supabase.data].

(** The cases of the e-mail step. *)
Ltac mail es :=
  let send := fresh "send" in
  destruct es as [[|[send|]]|]; step;
  try match goal with |- context [send ?m] => destruct (send m) end;
  step.

Section Runs.
Import Supabase Async Ledger.

(** The run of an approval whose three requests reach the store. *)
Lemma approve_success_run (d : db) fs s es ad ob ck tk co
    (payoutId : string) (adminId : option string) (p : payout) (n : partner) :
  payouts d !! payoutId = Some p ->
  partners d !! partner_id p = Some n ->
  status p = "pending" ->
  reliable 3 fs = true ->
  PrimFloat.ltb (available n) (required p) = false ->
  exists ob' co',
    run (AdminService.approvePayout payoutId adminId) (World d fs s es ad ob ck tk co) =
    (Returned (AdminService.Approval "Payout approved successfully" payoutId (required p)
                 (business_name n) (available n)
                 (PrimFloat.sub (available n) (required p))),
     World
       (Db (alter (fun _ => approved_row p (ck tk) (ck (S tk)) adminId)
                  payoutId (payouts d))
           (alter (fun _ => debited_row n (PrimFloat.sub (available n) (required p))
                              (ck (S (S tk))))
                  (partner_id p) (partners d)))
       (tail (tail (tail fs)))
       (s ++ approval_requests payoutId adminId p
               (PrimFloat.sub (available n) (required p))
               (ck tk) (ck (S tk)) (ck (S (S tk))))
       es ad ob' ck (S (S (S tk))) co').
Proof.
  intros Hp Hn Hs Hf Hlt. unfold available, required in *.
  pose proof (reliable_le 1 3 fs ltac:(lia) Hf) as Hf1.
  pose proof (reliable_tail 2 fs Hf) as Hf2.
  pose proof (reliable_le 1 2 _ ltac:(lia) Hf2) as Hf2'.
  pose proof (reliable_tail 1 _ Hf2) as Hf3.
  step. rewrite send_request_ok, (exec_select _ _ _ _ _ Hp Hn) by assumption.
  step. rewrite Hs, select_columns_true. cbn [String.eqb Ascii.eqb Bool.eqb negb].
  rewrite Hlt. step. send. step. send. step.
  rewrite update_payout_by_id, update_partner_by_id.
  rewrite <- !app_assoc. cbn [app].
  rewrite (alter_ext _ (fun _ => approved_row p (ck tk) (ck (S tk)) adminId)
             (payouts d) payoutId)
    by (intros p' Hp'; rewrite Hp in Hp'; injection Hp' as <-; destruct p; reflexivity).
  rewrite (alter_ext _ (fun _ => debited_row n
                                   (PrimFloat.sub
                                      (JS.or_zero (JS.parseFloat (available_balance n)))
                                      (JS.parseFloat (amount p)))
                                   (ck (S (S tk)))) (partners d) (partner_id p))
    by (intros n' Hn'; rewrite Hn in Hn'; injection Hn' as <-; destruct n; reflexivity).
  mail es; eexists _, _; reflexivity.
Qed.

End Runs.

(* ===================================================================== *)
(** ** Facts about printing *)
(* ===================================================================== *)

Section Printing.
Import Ledger.

Lemma list_ascii_of_append (a b : string) :
  list_ascii_of_string (a +:+ b) = list_ascii_of_string a ++ list_ascii_of_string b.
Proof. induction a as [|c a IH]; simpl; [reflexivity|]. rewrite IH. reflexivity. Qed.

(** Ending in a point and two digits depends on the end of the text only. *)
Lemma has_two_decimals_append (a b : string) :
  has_two_decimals b = true -> has_two_decimals (a +:+ b) = true.
Proof.
  unfold has_two_decimals. rewrite list_ascii_of_append, rev_app_distr.
  destruct (rev (list_ascii_of_string b)) as [|d2 [|d1 [|c l]]]; try discriminate.
  simpl. auto.
Qed.

Lemma two_digits_fraction (r : Z) : 0 <= r < 100 -> fraction_ok r = true.
Proof.
  intros Hr.
  assert (H : forallb fraction_ok (map Z.of_nat (seq 0 100)) = true)
    by (vm_compute; reflexivity).
  rewrite forallb_forall in H. apply H.
  apply in_map_iff. exists (Z.to_nat r). split; [lia|]. apply in_seq. lia.
Qed.

(** [toFixed(2)] of a number of magnitude below [1e21] ends in a point and
    two digits. *)
Lemma toFixed2_two_decimals (x : float) :
  below_1e21 x = true -> has_two_decimals (JS.toFixed2 x) = true.
Proof.
  unfold below_1e21, JS.toFixed2.
  destruct (Prim2SF x) as [s|s| |s m e]; try discriminate; [reflexivity|].
  intros H. apply negb_true_iff in H. rewrite H.
  apply has_two_decimals_append, has_two_decimals_append.
  apply two_digits_fraction. apply Z.mod_pos_bound. lia.
Qed.

End Printing.

(* ===================================================================== *)
(** ** The properties of the specification *)
(* ===================================================================== *)

Section Properties.
Import Supabase Async Ledger.

(** C1, as the code has it.  Approving a pending payout whose partner has
    at least the payout's amount available, when the three requests reach
    the store: the payout row becomes [approved] with [approved_at] and
    [approved_by] set, the partner's balance becomes the binary64
    difference of the previous balance and the amount, and the result
    carries the payout id, the amount, the partner's business name, the
    previous balance and that difference. *)
Theorem approve_pending_sufficient (w : world) (payoutId : string)
    (adminId : option string) (p : payout) (n : partner) :
  payouts (database w) !! payoutId = Some p ->
  partners (database w) !! partner_id p = Some n ->
  status p = "pending" ->
  PrimFloat.leb (required p) (available n) = true ->
  reliable 3 (faults w) = true ->
  let new_balance := PrimFloat.sub (available n) (required p) in
  let '(r, w') := run (AdminService.approvePayout payoutId adminId) w in
  r = Returned (AdminService.Approval "Payout approved successfully" payoutId
                  (required p) (business_name n) (available n) new_balance) /\
  payouts (database w') !! payoutId =
    Some (approved_row p (clock w (ticks w)) (clock w (S (ticks w))) adminId) /\
  partners (database w') !! partner_id p =
    Some (debited_row n new_balance (clock w (S (S (ticks w))))).
Proof.
  intros Hp Hn Hs Hle Hf. destruct w as [d fs s es ad ob ck tk co].
  cbn [database faults clock ticks] in *.
  apply leb_not_ltb in Hle.
  destruct (approve_success_run d fs s es ad ob ck tk co payoutId adminId p n
              Hp Hn Hs Hf Hle) as (ob' & co' & ->).
  simpl. rewrite !lookup_alter_eq, Hp, Hn. auto.
Qed.

(** The example of the specification: a payout of 100 against a balance of
    250 leaves 150. *)
Lemma approve_pending_sufficient_witness :
  let '(r, w') := run (AdminService.approvePayout "P1" (Some "admin-7"))
                      (one_payout (pending_payout (JS.Num 100)) (acme (JS.Num 250)) []) in
  r = Returned (AdminService.Approval "Payout approved successfully" "P1"
                  100 "Acme Travel" 250 150) /\
  payouts (database w') !! "P1" =
    Some (approved_row (pending_payout (JS.Num 100))
            "2025-01-01T00:00:00Z" "2025-01-01T00:00:01Z" (Some "admin-7")) /\
  partners (database w') !! "N1" =
    Some (debited_row (acme (JS.Num 250)) 150 "2025-01-01T00:00:02Z").
Proof.
  exact (approve_pending_sufficient
           (one_payout (pending_payout (JS.Num 100)) (acme (JS.Num 250)) [])
           "P1" (Some "admin-7") (pending_payout (JS.Num 100)) (acme (JS.Num 250))
           eq_refl eq_refl eq_refl eq_refl eq_refl).
Defined.

(** C1, counterexample.  A pending payout of 0.12 against a balance of
    1.28 is approved; the new balance returned is 1.1600000000000001, not
    1.16, and adding the amount to it gives 1.2800000000000002, not the
    previous balance 1.28. *)
Lemma approve_sum_is_not_previous_balance :
  status (pending_payout (JS.Num 0.12)) = "pending" /\
  PrimFloat.leb (required (pending_payout (JS.Num 0.12))) (available (acme (JS.Num 1.28)))
    = true /\
  fst (run (AdminService.approvePayout "P1" None)
           (one_payout (pending_payout (JS.Num 0.12)) (acme (JS.Num 1.28)) [])) =
    Returned (AdminService.Approval "Payout approved successfully" "P1"
                0.12 "Acme Travel" 1.28 1.1600000000000001) /\
  PrimFloat.eqb 1.1600000000000001 1.16 = false /\
  PrimFloat.add 1.1600000000000001 0.12 = 1.2800000000000002%float /\
  PrimFloat.eqb (PrimFloat.add 1.1600000000000001 0.12) 1.28 = false.
Proof. vm_compute. repeat split. Qed.

(** C2.  When the payout row was written and the write of the partner's
    balance then fails with [e]: the ledger sends the compensating write
    (status [pending], [approved_at], [approved_by] and [processed_at]
    cleared, filtered by the payout's id), which, when it reaches the store,
    leaves the payout row reverted; the partners table is as before; and the
    caller gets an error whose message is "Failed to update partner balance: "
    followed by the store's message, a message none of the other failures of
    the operation can carry. *)
Theorem failed_debit_is_compensated (w : world) (payoutId : string)
    (adminId : option string) (p : payout) (n : partner) (e : store_error)
    (rest : list (option store_error)) :
  payouts (database w) !! payoutId = Some p ->
  partners (database w) !! partner_id p = Some n ->
  status p = "pending" ->
  PrimFloat.ltb (available n) (required p) = false ->
  faults w = None :: None :: Some e :: rest ->
  let '(r, w') := run (AdminService.approvePayout payoutId adminId) w in
  let surfaced := "Failed to update partner balance: " +:+ err_message e in
  r = Thrown (JS.Error surfaced) /\
  sent w' = sent w ++
            approval_requests payoutId adminId p
              (PrimFloat.sub (available n) (required p))
              (clock w (ticks w)) (clock w (S (ticks w))) (clock w (S (S (ticks w)))) ++
            [compensation payoutId] /\
  partners (database w') = partners (database w) /\
  (reliable 1 rest = true -> payouts (database w') !! payoutId = Some (reverted_row p)) /\
  surfaced <> "Payout not found" /\
  (forall s, surfaced <> "Cannot approve payout with status: " +:+ s) /\
  (forall a b, surfaced <> AdminService.insufficient_message a b) /\
  (forall m, surfaced <> "Failed to approve payout: " +:+ m).
Proof.
  intros Hp Hn Hs Hlt Hf. destruct w as [d fs s es ad ob ck tk co].
  cbn [database faults clock ticks sent] in *. subst fs. unfold available, required in *.
  step. rewrite send_request_ok, (exec_select _ _ _ _ _ Hp Hn) by reflexivity.
  step. rewrite Hs, select_columns_true. cbn [String.eqb Ascii.eqb Bool.eqb negb].
  rewrite Hlt. step. rewrite send_request_ok by reflexivity.
  cbn [exec fst snd payouts partners no_content error tail]. step.
  cbn [send_request next_fault]. step.
  unfold send_request. destruct (next_fault rest) as [[e'|] rest'] eqn:R;
    cbn [exec fst snd payouts partners no_content error failed]; step.
  - repeat split; try (intros; discriminate).
    + rewrite <- !app_assoc. reflexivity.
    + destruct rest as [|[?|] ?]; simpl in R; try discriminate; congruence.
  - repeat split; try (intros; discriminate).
    + rewrite <- !app_assoc. reflexivity.
    + intros _. rewrite !update_payout_by_id, !lookup_alter_eq, Hp.
      destruct p; reflexivity.
Qed.

(** The third request fails: the payout row is pending again and the
    partner keeps 250. *)
Lemma failed_debit_is_compensated_witness :
  let '(r, w') := run (AdminService.approvePayout "P1" (Some "admin-7"))
                      (one_payout (pending_payout (JS.Num 100)) (acme (JS.Num 250))
                         [None; None; Some (StoreError "connection reset")]) in
  r = Thrown (JS.Error "Failed to update partner balance: connection reset") /\
  payouts (database w') !! "P1" = Some (pending_payout (JS.Num 100)) /\
  partners (database w') !! "N1" = Some (acme (JS.Num 250)).
Proof.
  pose proof (failed_debit_is_compensated
                (one_payout (pending_payout (JS.Num 100)) (acme (JS.Num 250))
                   [None; None; Some (StoreError "connection reset")])
                "P1" (Some "admin-7") (pending_payout (JS.Num 100)) (acme (JS.Num 250))
                (StoreError "connection reset") []
                eq_refl eq_refl eq_refl eq_refl eq_refl) as H.
  destruct (run _ _) as [r w']. cbv zeta in H.
  destruct H as (Hr & _ & Hn & Hp & _).
  split; [exact Hr|]. split; [exact (Hp eq_refl)|]. rewrite Hn. reflexivity.
Defined.




(** C4.  For a payout that is found and is not pending, [approvePayout] and
    [rejectPayout] throw an error whose message ends with the payout's
    current status; the tables are left as they were and the only request
    sent is the read. *)
Theorem non_pending_payout_is_refused (w : world) (payoutId : string)
    (adminId : option string) (reason : string) (p : payout) (n : partner) :
  payouts (database w) !! payoutId = Some p ->
  partners (database w) !! partner_id p = Some n ->
  reliable 1 (faults w) = true ->
  status p <> "pending" ->
  (let '(r, w') := run (AdminService.approvePayout payoutId adminId) w in
   r = Thrown (JS.Error ("Cannot approve payout with status: " +:+ status p)) /\
   database w' = database w /\
   sent w' = sent w ++ [SelectPayoutWithPartner true payoutId]) /\
  (let '(r, w') := run (AdminService.rejectPayout payoutId adminId reason) w in
   r = Thrown (JS.Error ("Cannot reject payout with status: " +:+ status p)) /\
   database w' = database w /\
   sent w' = sent w ++ [SelectPayoutWithPartner false payoutId]).
Proof.
  intros Hp Hn Hf Hs. destruct w as [d fs s es ad ob ck tk co].
  cbn [database faults sent] in *. apply eqb_pending in Hs.
  split; step; rewrite send_request_ok, (exec_select _ _ _ _ _ Hp Hn) by assumption;
    step; rewrite Hs; step; auto.
Qed.

(** An approved payout can be neither approved nor rejected. *)
Lemma non_pending_payout_is_refused_witness :
  (let p := approved_row (pending_payout (JS.Num 100)) "t1" "t2" None in
   let w := one_payout p (acme (JS.Num 250)) [] in
   (let '(r, w') := run (AdminService.approvePayout "P1" None) w in
    r = Thrown (JS.Error "Cannot approve payout with status: approved") /\
    database w' = database w /\
    sent w' = [SelectPayoutWithPartner true "P1"]) /\
   (let '(r, w') := run (AdminService.rejectPayout "P1" None "late") w in
    r = Thrown (JS.Error "Cannot reject payout with status: approved") /\
    database w' = database w /\
    sent w' = [SelectPayoutWithPartner false "P1"])).
Proof.
  exact (non_pending_payout_is_refused
           (one_payout (approved_row (pending_payout (JS.Num 100)) "t1" "t2" None)
              (acme (JS.Num 250)) [])
           "P1" None "late"
           (approved_row (pending_payout (JS.Num 100)) "t1" "t2" None) (acme (JS.Num 250))
           eq_refl eq_refl eq_refl ltac:(discriminate)).
Defined.

(** C5, as the code has it.  For a pending payout whose partner has less
    available than the payout's amount, [approvePayout] throws the
    insufficient-balance error, whose message carries both numbers as
    [toFixed(2)] prints them (with exactly two decimals for every magnitude
    below 1e21); the tables are left as they were and the only request sent
    is the read. *)
Theorem insufficient_balance_is_refused (w : world) (payoutId : string)
    (adminId : option string) (p : payout) (n : partner) :
  payouts (database w) !! payoutId = Some p ->
  partners (database w) !! partner_id p = Some n ->
  reliable 1 (faults w) = true ->
  status p = "pending" ->
  PrimFloat.ltb (available n) (required p) = true ->
  let '(r, w') := run (AdminService.approvePayout payoutId adminId) w in
  r = Thrown (JS.Error ("Insufficient partner balance. Available: $" +:+
                        JS.toFixed2 (available n) +:+ ", Required: $" +:+
                        JS.toFixed2 (required p))) /\
  database w' = database w /\
  sent w' = sent w ++ [SelectPayoutWithPartner true payoutId] /\
  (below_1e21 (available n) = true -> has_two_decimals (JS.toFixed2 (available n)) = true) /\
  (below_1e21 (required p) = true -> has_two_decimals (JS.toFixed2 (required p)) = true).
Proof.
  intros Hp Hn Hf Hs Hlt. destruct w as [d fs s es ad ob ck tk co].
  cbn [database faults sent] in *. unfold available, required in *.
  step. rewrite send_request_ok, (exec_select _ _ _ _ _ Hp Hn) by assumption.
  step. rewrite Hs, select_columns_true. cbn [String.eqb Ascii.eqb Bool.eqb negb].
  rewrite Hlt. step.
  repeat split; apply toFixed2_two_decimals.
Qed.

(** 99.5 available against an amount read from the text [100.005]. *)
Lemma insufficient_balance_is_refused_witness :
  let w := one_payout (pending_payout (JS.Str "100.005")) (acme (JS.Num 99.5)) [] in
  let '(r, w') := run (AdminService.approvePayout "P1" None) w in
  r = Thrown (JS.Error
                "Insufficient partner balance. Available: $99.50, Required: $100.00") /\
  database w' = database w /\
  sent w' = [SelectPayoutWithPartner true "P1"].
Proof.
  pose proof (insufficient_balance_is_refused
                (one_payout (pending_payout (JS.Str "100.005")) (acme (JS.Num 99.5)) [])
                "P1" None (pending_payout (JS.Str "100.005")) (acme (JS.Num 99.5))
                eq_refl eq_refl eq_refl eq_refl eq_refl) as H.
  cbv zeta. destruct (run _ _) as [r w']. destruct H as (Hr & Hd & Hs & _).
  split; [exact Hr|]. split; [exact Hd|exact Hs].
Defined.

(** C5, counterexample.  A pending payout of 2.5e21 against a balance of
    1e21 is refused, and the message prints neither number with two
    decimals: [toFixed(2)] gives [1e+21] and [2.5e+21]. *)
Lemma insufficient_message_without_decimals :
  status (pending_payout (JS.Num 2.5e21)) = "pending" /\
  PrimFloat.ltb (available (acme (JS.Num 1e21))) (required (pending_payout (JS.Num 2.5e21)))
    = true /\
  fst (run (AdminService.approvePayout "P1" None)
           (one_payout (pending_payout (JS.Num 2.5e21)) (acme (JS.Num 1e21)) [])) =
    Thrown (JS.Error
              "Insufficient partner balance. Available: $1e+21, Required: $2.5e+21") /\
  has_two_decimals (JS.toFixed2 (available (acme (JS.Num 1e21)))) = false /\
  has_two_decimals (JS.toFixed2 (required (pending_payout (JS.Num 2.5e21)))) = false.
Proof. vm_compute. repeat split. Qed.

(** C8.  Rejecting a pending payout, when both requests reach the store:
    the payout row becomes [rejected] with [rejected_at] set, [rejected_by]
    the given admin and [rejection_reason] the given reason, or "Rejected by
    admin" when the given reason is empty; the result carries the payout id
    and the reason as it was given. *)
Theorem reject_pending_payout (w : world) (payoutId : string)
    (adminId : option string) (reason : string) (p : payout) (n : partner) :
  payouts (database w) !! payoutId = Some p ->
  partners (database w) !! partner_id p = Some n ->
  status p = "pending" ->
  reliable 2 (faults w) = true ->
  let stored_reason := if String.eqb reason "" then "Rejected by admin" else reason in
  let '(r, w') := run (AdminService.rejectPayout payoutId adminId reason) w in
  r = Returned (AdminService.Rejection "Payout rejected successfully" payoutId reason) /\
  payouts (database w') !! payoutId =
    Some (rejected_row p (clock w (ticks w)) adminId stored_reason) /\
  partners (database w') = partners (database w) /\
  sent w' = sent w ++
            [SelectPayoutWithPartner false payoutId;
             UpdatePayouts [SetStatus "rejected"; SetRejectedAt (Some (clock w (ticks w)));
                            SetRejectedBy adminId; SetRejectionReason (Some stored_reason)]
                           [PayoutIdEq payoutId]].
Proof.
  intros Hp Hn Hs Hf. destruct w as [d fs s es ad ob ck tk co].
  cbn [database faults clock ticks sent] in *.
  pose proof (reliable_le 1 2 fs ltac:(lia) Hf) as Hf1.
  pose proof (reliable_tail 1 fs Hf) as Hf2.
  step. rewrite send_request_ok, (exec_select _ _ _ _ _ Hp Hn) by assumption.
  step. rewrite Hs. cbn [String.eqb Ascii.eqb Bool.eqb negb]. step. send. step.
  rewrite update_payout_by_id, <- app_assoc. cbn [app].
  mail es; cbn [database payouts partners sent];
    rewrite lookup_alter_eq, Hp; destruct p; repeat split.
Qed.

(** Rejecting [P1] without a reason stores the default reason and returns
    the empty one. *)
Lemma reject_pending_payout_witness :
  let '(r, w') := run (AdminService.rejectPayout "P1" (Some "admin-7") "")
                      (one_payout (pending_payout (JS.Num 100)) (acme (JS.Num 250)) []) in
  r = Returned (AdminService.Rejection "Payout rejected successfully" "P1" "") /\
  payouts (database w') !! "P1" =
    Some (rejected_row (pending_payout (JS.Num 100)) "2025-01-01T00:00:00Z"
            (Some "admin-7") "Rejected by admin").
Proof.
  pose proof (reject_pending_payout
                (one_payout (pending_payout (JS.Num 100)) (acme (JS.Num 250)) [])
                "P1" (Some "admin-7") "" (pending_payout (JS.Num 100)) (acme (JS.Num 250))
                eq_refl eq_refl eq_refl eq_refl) as H.
  cbv zeta in H. destruct (run _ _) as [r w']. destruct H as (Hr & Hp & _).
  split; [exact Hr|exact Hp].
Defined.

(** C6.  Whatever the store does to the requests, an approval of a payout
    whose amount is a finite number (every decimal amount is) sends no write
    that sets a balance below zero: the one balance it may write is the
    balance it read in the same run minus the amount, and it writes it only
    when that balance is not below the amount.  The partner's row ends as it
    was or with such a balance. *)
Theorem approval_sets_no_negative_balance (w : world) (payoutId : string)
    (adminId : option string) (p : payout) (n : partner) :
  payouts (database w) !! payoutId = Some p ->
  partners (database w) !! partner_id p = Some n ->
  JS.isFinite (required p) = true ->
  let w' := snd (run (AdminService.approvePayout payoutId adminId) w) in
  (exists new, sent w' = sent w ++ new /\ Forall sets_no_negative_balance new) /\
  (partners (database w') !! partner_id p = Some n \/
   exists x t, PrimFloat.leb zero x = true /\
               partners (database w') !! partner_id p = Some (debited_row n x t)).
Proof.
  intros Hp Hn Hfin. destruct w as [d fs s es ad ob ck tk co].
  cbn [database sent] in *. unfold required in *. cbv zeta.
  step. unfold send_request. destruct (next_fault fs) as [[e1|] fs1]; step.
  { split; [eexists; split; [reflexivity|repeat constructor]|left; exact Hn]. }
  rewrite (exec_select _ _ _ _ _ Hp Hn). step. rewrite select_columns_true.
  destruct (String.eqb (status p) "pending"); step.
  2:{ split; [eexists; split; [reflexivity|repeat constructor]|left; exact Hn]. }
  destruct (PrimFloat.ltb _ _) eqn:Hlt; step.
  { split; [eexists; split; [reflexivity|repeat constructor]|left; exact Hn]. }
  pose proof (sub_nonneg _ _ (or_zero_is_number (JS.parseFloat (available_balance n)))
                Hfin Hlt) as Hx.
  unfold send_request. destruct (next_fault fs1) as [[e2|] fs2]; step.
  { split; [eexists; split; [rewrite <- app_assoc; reflexivity|repeat constructor]
           |left; exact Hn]. }
  cbn [exec fst snd payouts partners no_content error]. step.
  unfold send_request. destruct (next_fault fs2) as [[e3|] fs3]; step.
  - unfold send_request. destruct (next_fault fs3) as [[e4|] fs4];
      cbn [exec fst snd payouts partners no_content error]; step;
      (split; [eexists; split; [rewrite <- !app_assoc; reflexivity
                               |repeat constructor; exact Hx]
              |left; exact Hn]).
  - cbn [exec fst snd payouts partners no_content error]. step.
    mail es;
      (split; [eexists; split; [rewrite <- !app_assoc; reflexivity
                               |repeat constructor; exact Hx]
              |right; eexists _, _; split; [exact Hx|];
               cbn [database partners];
               rewrite update_partner_by_id, lookup_alter_eq, Hn;
               destruct n; reflexivity]).
Qed.

(** The whole balance is paid out: the balance written is 0. *)
Lemma approval_sets_no_negative_balance_witness :
  let w := one_payout (pending_payout (JS.Num 250)) (acme (JS.Str "250.00")) [] in
  let w' := snd (run (AdminService.approvePayout "P1" None) w) in
  (exists new, sent w' = new /\ Forall sets_no_negative_balance new) /\
  (partners (database w') !! "N1" = Some (acme (JS.Str "250.00")) \/
   exists x t, PrimFloat.leb zero x = true /\
               partners (database w') !! "N1" = Some (debited_row (acme (JS.Str "250.00")) x t)).
Proof.
  exact (approval_sets_no_negative_balance
           (one_payout (pending_payout (JS.Num 250)) (acme (JS.Str "250.00")) [])
           "P1" None (pending_payout (JS.Num 250)) (acme (JS.Str "250.00"))
           eq_refl eq_refl eq_refl).
Defined.

(** C7.  What [emailService] is bound to, and whether its [sendEmail]
    accepts or rejects a message, shows neither in the result of
    [approvePayout] or [rejectPayout] nor in the tables nor in the requests
    sent: two runs from worlds that differ in that binding alone end with
    the same result, the same tables and the same requests.  The e-mail
    steps themselves always return normally, leaving tables and requests as
    they were; a rejected message leaves one [console.error] line. *)
Theorem notifier_outcome_is_invisible (w : world) (es1 es2 : option email_service)
    (payoutId : string) (adminId : option string) (reason : string) :
  (let '(r1, w1) := run (AdminService.approvePayout payoutId adminId)
                        (with_emailService es1 w) in
   let '(r2, w2) := run (AdminService.approvePayout payoutId adminId)
                        (with_emailService es2 w) in
   r1 = r2 /\ database w1 = database w2 /\ sent w1 = sent w2) /\
  (let '(r1, w1) := run (AdminService.rejectPayout payoutId adminId reason)
                        (with_emailService es1 w) in
   let '(r2, w2) := run (AdminService.rejectPayout payoutId adminId reason)
                        (with_emailService es2 w) in
   r1 = r2 /\ database w1 = database w2 /\ sent w1 = sent w2) /\
  (forall n p x,
     let '(r, w') := run (AdminService.sendPayoutApprovalEmail n payoutId p x) w in
     r = Returned tt /\ database w' = database w /\ sent w' = sent w /\
     (forall send e, emailService w = Some (Service (Some send)) ->
                     (forall m, send m = Some e) ->
                     outbox w' = outbox w /\
                     console w' = console w ++
                       [Line ErrorLevel "Error sending payout approval email:" [PError e]])) /\
  (forall n p,
     let '(r, w') := run (AdminService.sendPayoutRejectionEmail n payoutId p reason) w in
     r = Returned tt /\ database w' = database w /\ sent w' = sent w /\
     (forall send e, emailService w = Some (Service (Some send)) ->
                     (forall m, send m = Some e) ->
                     outbox w' = outbox w /\
                     console w' = console w ++
                       [Line ErrorLevel "Error sending payout rejection email:" [PError e]])).
Proof.
  destruct w as [d fs s es ad ob ck tk co]. cbn [with_emailService].
  repeat apply conj.
  - step. unfold send_request. destruct (next_fault fs) as [[e1|] fs1]; step; [auto|].
    cbn [exec]. destruct (payouts d !! payoutId) as [p|]; step; [|auto].
    destruct (partners d !! partner_id p) as [n|]; step; [|auto].
    destruct (String.eqb (status p) "pending"); step; [|auto].
    destruct (PrimFloat.ltb _ _); step; [auto|].
    unfold send_request. destruct (next_fault fs1) as [[e2|] fs2]; step; [auto|].
    cbn [exec fst snd payouts partners no_content error]. step.
    unfold send_request. destruct (next_fault fs2) as [[e3|] fs3]; step.
    + unfold send_request. destruct (next_fault fs3) as [[e4|] fs4];
        cbn [exec fst snd payouts partners no_content error]; step; auto.
    + cbn [exec fst snd payouts partners no_content error]. step.
      mail es1; mail es2; auto.
  - step. unfold send_request. destruct (next_fault fs) as [[e1|] fs1]; step; [auto|].
    cbn [exec]. destruct (payouts d !! payoutId) as [p|]; step; [|auto].
    destruct (partners d !! partner_id p) as [n|]; step; [|auto].
    destruct (String.eqb (status p) "pending"); step; [|auto].
    unfold send_request. destruct (next_fault fs1) as [[e2|] fs2]; step; [auto|].
    cbn [exec fst snd payouts partners no_content error]. step.
    mail es1; mail es2; auto.
  - intros n p x. step. destruct es as [[|[send|]]|]; step.
    + do 3 (split; [reflexivity|]). intros; discriminate.
    + destruct (send _) as [e|] eqn:E; step; do 3 (split; [reflexivity|]);
        intros send' e' [= <-] H; rewrite H in E; [|discriminate].
      injection E as <-. split; reflexivity.
    + do 3 (split; [reflexivity|]). intros; discriminate.
    + do 3 (split; [reflexivity|]). intros; discriminate.
  - intros n p. step. destruct es as [[|[send|]]|]; step.
    + do 3 (split; [reflexivity|]). intros; discriminate.
    + destruct (send _) as [e|] eqn:E; step; do 3 (split; [reflexivity|]);
        intros send' e' [= <-] H; rewrite H in E; [|discriminate].
      injection E as <-. split; reflexivity.
    + do 3 (split; [reflexivity|]). intros; discriminate.
    + do 3 (split; [reflexivity|]). intros; discriminate.
Qed.

(** C9.  In a world where nothing binds the identifier [adminId] (the
    controller module declares none), the handler answers every request
    with status 400 and [success: false]: a request without a payout id is
    turned down at once, and for every other request reading [adminId]
    throws the ReferenceError whose message becomes the body's [error]; the
    service is never called, so no request is sent and the tables are left
    as they were. *)
Theorem approve_endpoint_always_answers_400 (w : world)
    (req : AdminController.http_request) :
  adminId w = None ->
  let '(r, w') := run (AdminController.approvePayout req) w in
  (exists b, r = Returned (AdminController.Response 400 (AdminController.FailureBody b))) /\
  (forall id, AdminController.params_payoutId req = Some id -> id <> "" ->
     r = Returned (AdminController.Response 400
                     (AdminController.FailureBody "adminId is not defined"))) /\
  database w' = database w /\ sent w' = sent w.
Proof.
  intros Hid. destruct w as [d fs s es ad ob ck tk co]. cbn [adminId] in Hid. subst ad.
  destruct req as [[[|c id]|]]; step.
  - split; [eexists; reflexivity|]. split; [|split; reflexivity].
    intros id [= <-] H. contradiction.
  - split; [eexists; reflexivity|]. split; [|split; reflexivity].
    intros. reflexivity.
  - split; [eexists; reflexivity|]. split; [|split; reflexivity].
    intros; discriminate.
Qed.

(** A request for the pending payout [P1], which the service would
    approve, is answered with 400. *)
Lemma approve_endpoint_always_answers_400_witness :
  let w := one_payout (pending_payout (JS.Num 100)) (acme (JS.Num 250)) [] in
  let '(r, w') := run (AdminController.approvePayout
                         (AdminController.HttpRequest (Some "P1"))) w in
  r = Returned (AdminController.Response 400
                  (AdminController.FailureBody "adminId is not defined")) /\
  database w' = database w /\ sent w' = [].
Proof.
  pose proof (approve_endpoint_always_answers_400
                (one_payout (pending_payout (JS.Num 100)) (acme (JS.Num 250)) [])
                (AdminController.HttpRequest (Some "P1")) eq_refl) as H.
  cbv zeta. destruct (run _ _) as [r w']. destruct H as (_ & Hr & Hd & Hs).
  split; [apply (Hr "P1"); [reflexivity|discriminate]|]. split; [exact Hd|exact Hs].
Defined.



(** White space before a number is skipped whatever its width: a balance
    held as the text of U+00A0 and [250] is read as 250 and covers a payout
    of 100. *)
Example balance_after_wide_space :
  let balance := JS.Str (String (ascii_of_nat 194) (String (ascii_of_nat 160) "250")) in
  let '(r, w') := run (AdminService.approvePayout "P1" None)
                      (one_payout (pending_payout (JS.Num 100)) (acme balance) []) in
  r = Returned (AdminService.Approval "Payout approved successfully" "P1"
                  100 "Acme Travel" 250 150) /\
  available_balance <$> (partners (database w') !! "N1") = Some (JS.Num 150).
Proof. vm_compute. repeat split. Qed.

End Properties.

(* ===================================================================== *)
(** ** Further facts about binary64 numbers *)
(* ===================================================================== *)

Section MoreBinary64.
Import Ledger.

Lemma ltb_leb (x y : float) : PrimFloat.ltb x y = true -> PrimFloat.leb x y = true.
Proof.
  rewrite FloatAxioms.ltb_spec, FloatAxioms.leb_spec. unfold SFltb, SFleb.
  destruct (SFcompare _ _) as [[]|]; congruence.
Qed.

Lemma leb_is_number_r (x y : float) : PrimFloat.leb x y = true -> is_nan y = false.
Proof.
  rewrite FloatAxioms.leb_spec. unfold is_nan. rewrite FloatAxioms.eqb_spec.
  unfold SFleb, SFeqb. destruct (Prim2SF x) as [[]|[]| |[] ? ?], (Prim2SF y) as [[]|[]| |[] ? ?];
    simpl; try congruence; intros _; rewrite Z.compare_refl, Pos.compare_cont_refl; reflexivity.
Qed.

Lemma number_or_is_number (x d : float) :
  is_nan d = false -> is_nan (Std.number_or x d) = false.
Proof.
  intros Hd. unfold Std.number_or.
  destruct (is_nan x) eqn:E; simpl; [exact Hd|]. destruct (is_zero x); [exact Hd|exact E].
Qed.

(** [Math.max(1, y)] of a number is at least 1. *)
Lemma max_1_bound (y : float) :
  is_nan y = false ->
  PrimFloat.leb 1 (Std.max 1 y) = true.
Proof.
  intros Hy. unfold Std.max. change (is_nan 1) with false. rewrite Hy. simpl.
  destruct (PrimFloat.ltb 1 y) eqn:E1; [apply ltb_leb; exact E1|].
  destruct (PrimFloat.ltb y 1); reflexivity.
Qed.

(** [Math.min(100, m)] of a number that is at least 1 lies between 1 and
    100. *)
Lemma min_100_bound (m : float) :
  PrimFloat.leb 1 m = true ->
  PrimFloat.leb 1 (Std.min 100 m) = true /\ PrimFloat.leb (Std.min 100 m) 100 = true.
Proof.
  intros Hm. pose proof (leb_is_number_r _ _ Hm) as Hn.
  unfold Std.min. change (is_nan 100) with false. rewrite Hn. simpl.
  destruct (PrimFloat.ltb 100 m) eqn:E1; [split; reflexivity|].
  destruct (PrimFloat.ltb m 100) eqn:E2; [|split; reflexivity].
  split; [exact Hm|apply ltb_leb; exact E2].
Qed.

(** A number that is at least 1 and at most 100 is finite and positive. *)
Lemma within_1_100 (b : float) :
  PrimFloat.leb 1 b = true -> PrimFloat.leb b 100 = true ->
  exists m e, Prim2SF b = S754_finite false m e.
Proof.
  rewrite !FloatAxioms.leb_spec.
  change (Prim2SF 1) with (S754_finite false 4503599627370496 (-52)).
  change (Prim2SF 100) with (S754_finite false 7036874417766400 (-46)).
  destruct (Prim2SF b) as [sb|[]| |[] mb eb]; intros H1 H2;
    try discriminate H1; try discriminate H2.
  exists mb, eb. reflexivity.
Qed.

(** The product of a number that is not negative and a finite number that
    is at least 1 is not negative. *)
Lemma mul_nonneg (a b : float) :
  PrimFloat.leb 0 a = true -> PrimFloat.leb 1 b = true -> PrimFloat.leb b 100 = true ->
  PrimFloat.leb 0 (PrimFloat.mul a b) = true.
Proof.
  intros Ha H1 H2. destruct (within_1_100 b H1 H2) as (mb & eb & Eb).
  revert Ha. rewrite !FloatAxioms.leb_spec, FloatAxioms.mul_spec, Eb.
  change (Prim2SF 0) with (S754_zero false). rewrite !SFleb_zero.
  destruct (Prim2SF a) as [[]|[]| |[] ma ea]; intros Ha; try discriminate Ha;
    try reflexivity.
  cbn [SFmul xorb]. apply binary_round_aux_nonneg. lia.
Qed.

End MoreBinary64.

(* ===================================================================== *)
(** ** Properties of the other operations *)
(* ===================================================================== *)

Section Pagination.
Import Std Admin.

(** The page size lies from 1 to 100. *)
Lemma validatedLimit_bounds (limit : value) :
  PrimFloat.leb 1 (validatedLimit limit) = true /\
  PrimFloat.leb (validatedLimit limit) 100 = true.
Proof.
  apply min_100_bound, max_1_bound, number_or_is_number. reflexivity.
Qed.

(** The page is at least 1. *)
Lemma validatedPage_bound (page : value) :
  PrimFloat.leb 1 (validatedPage page) = true.
Proof. apply max_1_bound, number_or_is_number. reflexivity. Qed.

(** X1. Whatever page and page size are asked for, the page size the
    listings work with lies from 1 to 100, the page is at least 1 and the
    offset of the first row is not negative. *)
Theorem page_size_is_clamped (limit page : value) :
  PrimFloat.leb 1 (validatedLimit limit) = true /\
  PrimFloat.leb (validatedLimit limit) 100 = true /\
  PrimFloat.leb 1 (validatedPage page) = true /\
  PrimFloat.leb 0 (offset page limit) = true.
Proof.
  destruct (validatedLimit_bounds limit) as [L1 L2].
  pose proof (validatedPage_bound page) as P1.
  repeat split; try assumption.
  unfold offset. apply mul_nonneg; try assumption.
  apply sub_nonneg; [exact (leb_is_number_r _ _ P1)|reflexivity|].
  apply leb_not_ltb. exact P1.
Qed.

End Pagination.

(** One step of a run: the code and its effects unfold, texts and numbers
    do not. *)
Ltac exec :=
  unfold Terms.result_of, Terms.asked, Terms.mailed, Terms.world_after;
  unfold Terms.with_sendEmail;
  cbn [Node.run Node.bind Node.try_catch mbind mret Node.proc_bind Node.proc_ret
       Node.perform Node.call Node.now Node.console_log Node.console_warn
       Node.console_error Node.throw Node.throw_store fst snd negb
       Node.error Node.data Node.count Node.answers Node.sent Node.sendEmail
       Node.outbox Node.clock Node.ticks Node.end_of_day Node.console
       Admin.send Admin.promo_member Controller.member Controller.failure
       Controller.statusCode Controller.json Controller.params Controller.query
       Controller.body Controller.user
       app].

Section MoreNumbers.

Lemma at_least_1_not_negative (b : float) :
  PrimFloat.leb 1 b = true -> PrimFloat.ltb b 0 = false.
Proof.
  rewrite FloatAxioms.leb_spec, FloatAxioms.ltb_spec.
  change (Prim2SF 1) with (S754_finite false 4503599627370496 (-52)).
  change (Prim2SF 0) with (S754_zero false).
  destruct (Prim2SF b) as [sb|[]| |[] mb eb]; intros H; try discriminate H; reflexivity.
Qed.

Lemma zero_div (b : float) :
  PrimFloat.leb 1 b = true -> PrimFloat.leb b 100 = true -> PrimFloat.div 0 b = 0%float.
Proof.
  intros H1 H2. destruct (within_1_100 b H1 H2) as (m & e & E).
  rewrite <- (SF2Prim_Prim2SF (PrimFloat.div 0 b)), FloatAxioms.div_spec, E.
  reflexivity.
Qed.

Lemma SFcompare_none (x y : spec_float) :
  SFcompare x y = None -> x = S754_nan \/ y = S754_nan.
Proof.
  destruct x as [[]|[]| |[] mx ex], y as [[]|[]| |[] my ey]; simpl; intros H;
    try discriminate H; auto.
Qed.

Lemma not_ltb_leb (x y : float) :
  is_nan x = false -> is_nan y = false ->
  PrimFloat.ltb x y = false -> PrimFloat.leb y x = true.
Proof.
  intros Hx Hy. rewrite FloatAxioms.ltb_spec, FloatAxioms.leb_spec. unfold SFltb, SFleb.
  rewrite (SFcompare_antisym (Prim2SF x) (Prim2SF y)).
  destruct (SFcompare (Prim2SF x) (Prim2SF y)) as [[]|] eqn:E; simpl; try congruence.
  intros _. destruct (SFcompare_none _ _ E) as [N|N];
    [apply is_nan_spec in Hx|apply is_nan_spec in Hy]; contradiction.
Qed.

(** A number that is not NaN, not below 0 and not above 1 lies from 0 to
    1. *)
Lemma within_unit (r : float) :
  (is_nan r || PrimFloat.ltb r 0 || PrimFloat.ltb 1 r)%bool = false ->
  (PrimFloat.leb 0 r && PrimFloat.leb r 1)%bool = true.
Proof.
  intros H. apply orb_false_iff in H as [H H3]. apply orb_false_iff in H as [H1 H2].
  rewrite (not_ltb_leb r 0 H1 eq_refl H2), (not_ltb_leb 1 r eq_refl H1 H3). reflexivity.
Qed.

End MoreNumbers.

Section Payouts.
Import Std Node Terms.

(** What [getAllPayouts] does up to its request, for filters it can read. *)
Lemma getAllPayouts_readable (page limit : value) (filters : members) (w : world) :
  readable w filters = true ->
  exists q cs,
    run (Admin.getAllPayouts page limit filters) w =
    run (try_catch
           (r ← call q;
            match error r with
            | Some e =>
                console_error "Error fetching payouts:" [PStoreError e];;
                throw ("Failed to fetch payouts: " +:+ pg_message e)
            | None =>
                Return (Obj [("payouts", or_else (data r) (Arr []));
                  ("pagination",
                   Obj [("total", Num (Admin.totalRecords (count r)));
                        ("page", Num (Admin.validatedPage page));
                        ("limit", Num (Admin.validatedLimit limit));
                        ("totalPages", Num (Admin.totalPages (count r) limit));
                        ("hasNextPage",
                         Bool (PrimFloat.ltb (Admin.validatedPage page)
                                 (Admin.totalPages (count r) limit)));
                        ("hasPreviousPage",
                         Bool (PrimFloat.ltb 1 (Admin.validatedPage page)))])])
            end)
           (fun error => console_error "Error in getAllPayouts:" [PError error];;
                         Throw error))
        (World (answers w) (sent w) (sendEmail w) (outbox w) (clock w) (ticks w)
           (end_of_day w) (console w ++ cs)).
Proof.
  destruct w as [an s se ob ck tk ed co]. unfold readable, Admin.getAllPayouts. exec.
  intros H. apply andb_true_iff in H as [H1 H2].
  destruct (truthy (get (Obj filters) "endDate")) eqn:E1; cbn [negb orb] in H1.
  - apply bool_decide_eq_true in H1. destruct H1 as [t Ht].
    cbn [end_of_day] in Ht. exec. rewrite Ht. exec.
    destruct (truthy (get (Obj filters) "search")) eqn:E2; cbn [negb orb] in H2.
    + destruct (get (Obj filters) "search") as [| | | |x| |]; try discriminate H2.
      cbn [Admin.trim_of]. destruct (negb (String.eqb (trim x) "")); exec;
        eexists _, [_]; reflexivity.
    + exec. eexists _, [_]; reflexivity.
  - exec.
    destruct (truthy (get (Obj filters) "search")) eqn:E2; cbn [negb orb] in H2.
    + destruct (get (Obj filters) "search") as [| | | |x| |]; try discriminate H2.
      cbn [Admin.trim_of]. destruct (negb (String.eqb (trim x) "")); exec;
        eexists _, [_]; reflexivity.
    + exec. eexists _, [_]; reflexivity.
Qed.

(** X2. When the store answers the listing with an error, [getAllPayouts]
    throws [Failed to fetch payouts: <the store's message>], having made one
    request. *)
Theorem getAllPayouts_store_error (page limit : value) (filters : members) (w : world)
    (d : value) (e : pg_error) (c : option float) (rest : list reply) :
  readable w filters = true ->
  answers w = Reply d (Some e) c :: rest ->
  result_of (Admin.getAllPayouts page limit filters) w =
    Thrown (JS.Error ("Failed to fetch payouts: " +:+ pg_message e)) /\
  length (asked (Admin.getAllPayouts page limit filters) w) = 1%nat.
Proof.
  intros Hr Ha. destruct (getAllPayouts_readable page limit filters w Hr) as (q & cs & E).
  unfold result_of, asked, world_after. rewrite E. rewrite Ha. exec.
  rewrite drop_app_length. split; reflexivity.
Qed.

Lemma getAllPayouts_store_error_witness :
  result_of (Admin.getAllPayouts (Str "2") (Str "10") [])
    (example_world [Reply Null (Some store_down) None]) =
    Thrown (JS.Error "Failed to fetch payouts: connection failure") /\
  length (asked (Admin.getAllPayouts (Str "2") (Str "10") [])
            (example_world [Reply Null (Some store_down) None])) = 1%nat.
Proof.
  exact (getAllPayouts_store_error (Str "2") (Str "10") []
           (example_world [Reply Null (Some store_down) None])
           Null store_down None [] eq_refl eq_refl).
Defined.

(** X3. With no rows counted (no count, or a count of 0), [getAllPayouts]
    reports total 0, 0 pages and no next page, and an empty list when the
    store sent no data. *)
Theorem getAllPayouts_nothing_counted (page limit : value) (filters : members) (w : world)
    (d : value) (c : option float) (rest : list reply) :
  readable w filters = true ->
  answers w = Reply d None c :: rest ->
  Admin.totalRecords c = 0%float ->
  result_of (Admin.getAllPayouts page limit filters) w =
    Returned (Obj [("payouts", or_else d (Arr []));
                   ("pagination",
                    Obj [("total", Num 0);
                         ("page", Num (Admin.validatedPage page));
                         ("limit", Num (Admin.validatedLimit limit));
                         ("totalPages", Num 0);
                         ("hasNextPage", Bool false);
                         ("hasPreviousPage",
                          Bool (PrimFloat.ltb 1 (Admin.validatedPage page)))])]).
Proof.
  intros Hr Ha Hc. destruct (getAllPayouts_readable page limit filters w Hr) as (q & cs & E).
  unfold result_of. rewrite E, Ha. exec.
  destruct (validatedLimit_bounds limit) as [L1 L2].
  pose proof (validatedPage_bound page) as P1.
  assert (Hp : Admin.totalPages c limit = 0%float).
  { unfold Admin.totalPages. rewrite Hc, zero_div by assumption. reflexivity. }
  rewrite Hp, Hc, (at_least_1_not_negative _ P1). reflexivity.
Qed.

Lemma getAllPayouts_nothing_counted_witness :
  result_of (Admin.getAllPayouts (Str "3") Undefined [])
    (example_world [Reply Null None None]) =
    Returned (Obj [("payouts", Arr []);
                   ("pagination",
                    Obj [("total", Num 0); ("page", Num 3); ("limit", Num 20);
                         ("totalPages", Num 0); ("hasNextPage", Bool false);
                         ("hasPreviousPage", Bool true)])]).
Proof.
  exact (getAllPayouts_nothing_counted (Str "3") Undefined []
           (example_world [Reply Null None None]) Null None [] eq_refl eq_refl eq_refl).
Defined.

(** X4. Filters that cannot be read (an end date that is no date, a search
    term that is no text) make [getAllPayouts] throw before it asks the
    store anything. *)
Theorem getAllPayouts_unreadable_filters (page limit : value) (filters : members) (w : world) :
  readable w filters = false ->
  (exists e, result_of (Admin.getAllPayouts page limit filters) w = Thrown e) /\
  asked (Admin.getAllPayouts page limit filters) w = [].
Proof.
  destruct w as [an s se ob ck tk ed co]. unfold readable, Admin.getAllPayouts.
  cbn [end_of_day]. intros H. apply andb_false_iff in H. exec.
  destruct (truthy (get (Obj filters) "endDate")) eqn:E1; exec.
  - destruct (ed (get (Obj filters) "endDate")) as [t|] eqn:Et; exec.
    + destruct H as [H|H]; [cbn in H; discriminate H|].
      destruct (truthy (get (Obj filters) "search")) eqn:E2; [|discriminate H].
      destruct (get (Obj filters) "search") as [| | | |x| |]; try discriminate H;
        cbn [Admin.trim_of]; exec; rewrite drop_all; eauto.
    + rewrite drop_all; eauto.
  - destruct H as [H|H]; [discriminate H|].
    destruct (truthy (get (Obj filters) "search")) eqn:E2; [|discriminate H].
    destruct (get (Obj filters) "search") as [| | | |x| |]; try discriminate H;
      cbn [Admin.trim_of]; exec; rewrite drop_all; eauto.
Qed.

Lemma getAllPayouts_unreadable_filters_witness :
  asked (Admin.getAllPayouts Undefined Undefined [("search", Num 5)]) (example_world []) = [].
Proof.
  exact (proj2 (getAllPayouts_unreadable_filters Undefined Undefined [("search", Num 5)]
                  (example_world []) eq_refl)).
Defined.

End Payouts.

(** Tests on texts that are known decide themselves. *)
Ltac known :=
  cbn [JS.message JS.Error JS.name Node.TypeError];
  repeat match goal with
  | |- context [Admin.is_text (Std.Str ?a) ?b] =>
      let v := eval hnf in (Admin.is_text (Std.Str a) b) in
      match v with
      | true => change (Admin.is_text (Std.Str a) b) with true
      | false => change (Admin.is_text (Std.Str a) b) with false
      end
  | |- context [Admin.is_valid_action (Std.Str ?a)] =>
      let v := eval hnf in (Admin.is_valid_action (Std.Str a)) in
      match v with
      | true => change (Admin.is_valid_action (Std.Str a)) with true
      | false => change (Admin.is_valid_action (Std.Str a)) with false
      end
  | |- context [Std.includes ?a (String.append (String ?c ?p) ?b)] =>
      let v := eval hnf in (Std.includes a (String.append (String c p) b)) in
      match v with
      | true => change (Std.includes a (String.append (String c p) b)) with true
      | false => change (Std.includes a (String.append (String c p) b)) with false
      end
  | |- context [Std.includes ?a (String ?c ?b)] =>
      let v := eval hnf in (Std.includes a (String c b)) in
      match v with
      | true => change (Std.includes a (String c b)) with true
      | false => change (Std.includes a (String c b)) with false
      end
  end;
  cbn [orb andb negb].

(** A run to its end, with the facts at hand. *)
Tactic Notation "go" "with" tactic3(facts) := repeat (progress (exec; known; facts)).
Ltac go := repeat (progress (exec; known)).

(** The next case of a run: an answer of the store, a test, a result. *)
Ltac branch :=
  match goal with
  | |- context [match ?an with [] => _ | _ :: _ => _ end] =>
      is_var an; destruct an as [|[? [?|] ?] ?]
  | |- context [if ?c then _ else _] => destruct c eqn:?
  | |- context [match ?x with Some _ => _ | None => _ end] => destruct x eqn:?
  end.

Ltac requests := rewrite <- ?app_assoc; rewrite ?drop_app_length, ?drop_all.

Section Partners.
Import Std Node Terms.

Lemma found_inv (a : reply) :
  found a = true -> exists d c, a = Reply d None c /\ truthy d = true.
Proof.
  destruct a as [d [e|] c]; unfold found; simpl; intros H; [discriminate H|]. eauto.
Qed.

Lemma not_found_inv (a : reply) :
  found a = false ->
  (exists d e c, a = Reply d (Some e) c) \/ (exists d c, a = Reply d None c /\ truthy d = false).
Proof.
  destruct a as [d [e|] c]; unfold found; simpl; intros H; eauto.
Qed.

Lemma valid_action_inv (action : value) :
  Admin.is_valid_action action = true ->
  In action [Str "approve"; Str "reject"; Str "suspend"; Str "activate";
             Str "update_commission"; Str "update"].
Proof.
  unfold Admin.is_valid_action, Admin.validActions. cbn [existsb In]. intros H.
  destruct action as [| | | |a| |]; try discriminate H. cbn [Admin.is_text] in H.
  repeat (apply orb_true_iff in H as [H|H]; [apply String.eqb_eq in H; subst a; tauto|]).
  discriminate H.
Qed.

(** X5. Without a partner id [managePartners] throws [Partner ID is
    required]; it asks the store nothing and sends no e-mail. *)
Theorem managePartners_without_id (action partnerId : value) (data : members) (w : world) :
  truthy partnerId = false ->
  result_of (Admin.managePartners action partnerId data) w =
    Thrown (JS.Error "Partner ID is required") /\
  asked (Admin.managePartners action partnerId data) w = [] /\
  mailed (Admin.managePartners action partnerId data) w = [].
Proof.
  intros H. destruct w as [an s se ob ck tk ed co]. unfold Admin.managePartners.
  rewrite H. exec. known. exec. requests. repeat split.
Qed.

Lemma managePartners_without_id_witness :
  result_of (Admin.managePartners (Str "approve") (Str "") []) (example_world []) =
    Thrown (JS.Error "Partner ID is required") /\
  asked (Admin.managePartners (Str "approve") (Str "") []) (example_world []) = [] /\
  mailed (Admin.managePartners (Str "approve") (Str "") []) (example_world []) = [].
Proof.
  exact (managePartners_without_id (Str "approve") (Str "") [] (example_world []) eq_refl).
Defined.

(** X6. An action that is none of the six makes [managePartners] throw; it
    asks the store nothing and sends no e-mail. *)
Theorem managePartners_invalid_action (action partnerId : value) (data : members) (w : world) :
  Admin.is_valid_action action = false ->
  (exists e, result_of (Admin.managePartners action partnerId data) w = Thrown e) /\
  asked (Admin.managePartners action partnerId data) w = [] /\
  mailed (Admin.managePartners action partnerId data) w = [].
Proof.
  intros H. destruct w as [an s se ob ck tk ed co]. unfold Admin.managePartners.
  rewrite H. destruct (truthy partnerId); exec; known; exec.
  - match goal with |- context [if includes ?a ?b then _ else _] =>
      destruct (includes a b) end; exec.
    + requests. eauto.
    + match goal with |- context [if ?c then _ else _] => destruct c end; exec;
        requests; eauto.
  - requests. eauto.
Qed.

Lemma managePartners_invalid_action_witness :
  asked (Admin.managePartners (Str "promote") (Str "p-1") []) (example_world []) = [] /\
  mailed (Admin.managePartners (Str "promote") (Str "p-1") []) (example_world []) = [].
Proof.
  exact (proj2 (managePartners_invalid_action (Str "promote") (Str "p-1") []
                  (example_world []) eq_refl)).
Defined.

(** X7. When the partner is already in the state the action leads to,
    [managePartners] returns [Partner is already ...] with the row it read:
    it has made that one request, written nothing and sent no e-mail. *)
Theorem managePartners_nothing_to_do (a st word : string) (partnerId : value)
    (data : members) (w : world) (partner : value) (c : option float) (rest : list reply) :
  In (a, st, word) settled ->
  truthy partnerId = true ->
  answers w = Reply partner None c :: rest ->
  get partner "status" = Str st ->
  result_of (Admin.managePartners (Str a) partnerId data) w =
    Returned (Obj [("message", Str ("Partner is already " +:+ word)); ("partner", partner)]) /\
  asked (Admin.managePartners (Str a) partnerId data) w = [Admin.fetch_partner partnerId] /\
  mailed (Admin.managePartners (Str a) partnerId data) w = [].
Proof.
  intros Hin Hid Ha Hst. destruct w as [an s se ob ck tk ed co]. cbn [answers] in Ha. subst an.
  assert (Hp : truthy partner = true) by (destruct partner; try discriminate Hst; reflexivity).
  unfold Admin.managePartners, Admin.prepare.
  unfold settled in Hin. simpl in Hin.
  destruct Hin as [E|[E|[E|[E|[]]]]]; injection E as <- <- <-;
    (go with rewrite ?Hid, ?Hp, ?Hst); requests; repeat split.
Qed.

Lemma managePartners_nothing_to_do_witness :
  result_of (Admin.managePartners (Str "activate") (Str "p-1") [])
    (example_world [Reply (example_partner "approved") None None]) =
    Returned (Obj [("message", Str "Partner is already active");
                   ("partner", example_partner "approved")]).
Proof.
  exact (proj1 (managePartners_nothing_to_do "activate" "approved" "active" (Str "p-1") []
                  (example_world [Reply (example_partner "approved") None None])
                  (example_partner "approved") None []
                  (or_intror (or_intror (or_intror (or_introl eq_refl))))
                  eq_refl eq_refl eq_refl)).
Defined.

(** X8. Activating a partner that is neither suspended nor approved is
    refused: [managePartners] throws after the one request that read the
    partner, and writes nothing. *)
Theorem managePartners_activate_refused (partnerId : value) (data : members) (w : world)
    (partner : value) (c : option float) (rest : list reply) :
  truthy partnerId = true ->
  answers w = Reply partner None c :: rest ->
  truthy partner = true ->
  Admin.is_text (get partner "status") "suspended" = false ->
  Admin.is_text (get partner "status") "approved" = false ->
  result_of (Admin.managePartners (Str "activate") partnerId data) w =
    Thrown (JS.Error "Cannot activate partner that is not suspended or approved") /\
  asked (Admin.managePartners (Str "activate") partnerId data) w =
    [Admin.fetch_partner partnerId].
Proof.
  intros Hid Ha Hp H1 H2. destruct w as [an s se ob ck tk ed co]. cbn [answers] in Ha. subst an.
  unfold Admin.managePartners, Admin.prepare.
  (go with rewrite ?Hid, ?Hp, ?H1, ?H2); requests; repeat split.
Qed.

Lemma managePartners_activate_refused_witness :
  result_of (Admin.managePartners (Str "activate") (Str "p-1") [])
    (example_world [Reply (example_partner "pending") None None]) =
    Thrown (JS.Error "Cannot activate partner that is not suspended or approved").
Proof.
  exact (proj1 (managePartners_activate_refused (Str "p-1") []
                  (example_world [Reply (example_partner "pending") None None])
                  (example_partner "pending") None [] eq_refl eq_refl eq_refl eq_refl
                  eq_refl)).
Defined.

(** X9. A partner that cannot be read, whatever the store's error, is
    reported as [Partner with ID <id> not found]; nothing is written. *)
Theorem managePartners_unread_is_not_found (action partnerId : value) (data : members)
    (w : world) (a : reply) (rest : list reply) :
  truthy partnerId = true ->
  Admin.is_valid_action action = true ->
  answers w = a :: rest ->
  found a = false ->
  result_of (Admin.managePartners action partnerId data) w =
    Thrown (JS.Error ("Partner with ID " +:+ to_string partnerId +:+ " not found")) /\
  asked (Admin.managePartners action partnerId data) w = [Admin.fetch_partner partnerId] /\
  mailed (Admin.managePartners action partnerId data) w = [].
Proof.
  intros Hid Hv Ha Hf. destruct w as [an s se ob ck tk ed co]. cbn [answers] in Ha. subst an.
  unfold Admin.managePartners.
  destruct (not_found_inv a Hf) as [(d & e & c & ->)|(d & c & -> & Hd)];
    (go with rewrite ?Hid, ?Hv, ?Hd); requests; repeat split.
Qed.

Lemma managePartners_unread_is_not_found_witness :
  result_of (Admin.managePartners (Str "approve") (Str "p-1") [])
    (example_world [Reply Null (Some store_down) None]) =
    Thrown (JS.Error "Partner with ID p-1 not found").
Proof.
  exact (proj1 (managePartners_unread_is_not_found (Str "approve") (Str "p-1") []
                  (example_world [Reply Null (Some store_down) None])
                  (Reply Null (Some store_down) None) [] eq_refl eq_refl eq_refl eq_refl)).
Defined.

(** X10. Whatever commission rate is asked for, a rate that
    [managePartners] writes is a number from 0 to 1. *)
Theorem managePartners_commission_within_bounds (partnerId : value) (data : members)
    (w : world) :
  forallb commission_within_bounds
    (asked (Admin.managePartners (Str "update_commission") partnerId data) w) = true.
Proof.
  destruct w as [an s se ob ck tk ed co]. unfold Admin.managePartners, Admin.prepare.
  repeat (go; branch); go; requests; try reflexivity.
  all: cbn [app forallb commission_within_bounds action Admin.fetch_partner
            Admin.update_partner lookup_member String.eqb Ascii.eqb Bool.eqb andb];
    match goal with H : (is_nan _ || _ || _)%bool = false |- _ =>
      rewrite (within_unit _ H) end; reflexivity.
Qed.

Lemma lookup_set_member (k : string) (v : value) (ms : members) :
  lookup_member k (set_member k v ms) = Some v.
Proof.
  induction ms as [|[k' v'] ms IH]; simpl.
  - rewrite String.eqb_refl. reflexivity.
  - destruct (String.eqb k' k) eqn:E; simpl.
    + rewrite String.eqb_refl. reflexivity.
    + rewrite E. exact IH.
Qed.

Lemma lookup_set_member_other (k k' : string) (v : value) (ms : members) :
  k' <> k -> lookup_member k' (set_member k v ms) = lookup_member k' ms.
Proof.
  intros Hk. induction ms as [|[k0 v0] ms IH]; simpl.
  - destruct (String.eqb k k') eqn:E; [apply String.eqb_eq in E; congruence|reflexivity].
  - destruct (String.eqb k0 k) eqn:E; simpl.
    + apply String.eqb_eq in E. subst k0.
      destruct (String.eqb k k') eqn:E'; [apply String.eqb_eq in E'; congruence|reflexivity].
    + destruct (String.eqb k0 k'); [reflexivity|exact IH].
Qed.

(** X11. The action [update] writes the body it is given, member by member,
    whatever the members are; only [updated_at] is the clock's. *)
Theorem managePartners_update_writes_the_body (partnerId : value) (data : members)
    (w : world) (a : reply) (rest : list reply) :
  truthy partnerId = true ->
  answers w = a :: rest ->
  found a = true ->
  exists patch,
    asked (Admin.managePartners (Str "update") partnerId data) w =
      [Admin.fetch_partner partnerId; Admin.update_partner partnerId patch] /\
    lookup_member "updated_at" patch = Some (Str (iso (clock w (ticks w)))) /\
    forall k, k <> "updated_at" -> lookup_member k patch = lookup_member k data.
Proof.
  intros Hid Ha Hf. destruct w as [an s se ob ck tk ed co]. cbn [answers] in Ha. subst an.
  destruct (found_inv a Hf) as (d & c & -> & Hd).
  exists (set_member "updated_at" (Str (iso (ck tk))) data).
  split; [|split; [apply lookup_set_member|intros k Hk; apply lookup_set_member_other, Hk]].
  unfold Admin.managePartners, Admin.prepare.
  go with rewrite ?Hid, ?Hd.
  repeat (go; branch); go; requests; reflexivity.
Qed.

Lemma managePartners_update_writes_the_body_witness :
  exists patch,
    asked (Admin.managePartners (Str "update") (Str "p-1") [("status", Str "approved")])
      (example_world [Reply (example_partner "pending") None None]) =
      [Admin.fetch_partner (Str "p-1"); Admin.update_partner (Str "p-1") patch] /\
    lookup_member "updated_at" patch = Some (Str "2025-01-01T00:00:00.000Z") /\
    forall k, k <> "updated_at" ->
      lookup_member k patch = lookup_member k [("status", Str "approved")].
Proof.
  exact (managePartners_update_writes_the_body (Str "p-1") [("status", Str "approved")]
           (example_world [Reply (example_partner "pending") None None])
           (Reply (example_partner "pending") None None) [] eq_refl eq_refl eq_refl).
Defined.

(** X12. When the store refuses the write of an [update], the error
    [managePartners] throws is read off the store's message: [not found]
    in it gives [Partner with ID <id> not found], [duplicate] or [unique]
    gives a data conflict, anything else [Failed to update partner:
    <message>]. *)
Theorem managePartners_write_failure (partnerId : value) (data : members) (w : world)
    (a : reply) (d : value) (e : pg_error) (c : option float) (rest : list reply) :
  truthy partnerId = true ->
  answers w = a :: Reply d (Some e) c :: rest ->
  found a = true ->
  result_of (Admin.managePartners (Str "update") partnerId data) w =
    Thrown (JS.Error
      (if includes "not found" (pg_message e)
       then "Partner with ID " +:+ to_string partnerId +:+ " not found"
       else if (includes "duplicate" (pg_message e) || includes "unique" (pg_message e))%bool
       then "Partner update failed due to data conflict"
       else "Failed to update partner: " +:+ pg_message e)).
Proof.
  intros Hid Ha Hf. destruct w as [an s se ob ck tk ed co]. cbn [answers] in Ha. subst an.
  destruct (found_inv a Hf) as (d1 & c1 & -> & Hd).
  unfold Admin.managePartners, Admin.prepare.
  go with rewrite ?Hid, ?Hd.
  change (includes "not found" ("Failed to update partner: " +:+ pg_message e))
    with (includes "not found" (pg_message e)).
  change (includes "duplicate" ("Failed to update partner: " +:+ pg_message e))
    with (includes "duplicate" (pg_message e)).
  change (includes "unique" ("Failed to update partner: " +:+ pg_message e))
    with (includes "unique" (pg_message e)).
  destruct (includes "not found" (pg_message e)); go; [reflexivity|].
  destruct (includes "duplicate" (pg_message e) || includes "unique" (pg_message e))%bool;
    go; reflexivity.
Qed.

Lemma managePartners_write_failure_witness :
  result_of (Admin.managePartners (Str "update") (Str "p-1") [("email", Str "ops@acme.test")])
    (example_world
       [Reply (example_partner "approved") None None;
        Reply Null
          (Some (PgError "23505" "duplicate key value violates unique constraint")) None]) =
    Thrown (JS.Error "Partner update failed due to data conflict").
Proof.
  exact (managePartners_write_failure (Str "p-1") [("email", Str "ops@acme.test")]
           (example_world
              [Reply (example_partner "approved") None None;
               Reply Null
                 (Some (PgError "23505" "duplicate key value violates unique constraint"))
                 None])
           (Reply (example_partner "approved") None None) Null
           (PgError "23505" "duplicate key value violates unique constraint") None []
           eq_refl eq_refl eq_refl).
Defined.

Lemma run_bind {A B : Type} (p : proc A) (f : A -> proc B) (w : world) :
  run (bind p f) w =
  match run p w with
  | (Returned a, w') => run (f a) w'
  | (Thrown e, w') => (Thrown e, w')
  end.
Proof.
  revert w. induction p as [a|e|X eff k IH]; intros w; simpl; try reflexivity.
  destruct (perform eff w) as [x w']. apply IH.
Qed.

Lemma run_try_catch {A : Type} (p : proc A) (h : JS.error -> proc A) (w : world) :
  run (try_catch p h) w =
  match run p w with
  | (Returned a, w') => (Returned a, w')
  | (Thrown e, w') => run (h e) w'
  end.
Proof.
  revert w. induction p as [a|e|X eff k IH]; intros w; simpl; try reflexivity.
  destruct (perform eff w) as [x w']. apply IH.
Qed.

Lemma blind_return {A : Type} (a : A) : mail_blind (Return a).
Proof. intros w1 w2 E. split; [reflexivity|exact E]. Qed.

Lemma blind_throw {A : Type} (e : JS.error) : mail_blind (@Throw A e).
Proof. intros w1 w2 E. split; [reflexivity|exact E]. Qed.

Lemma blind_bind {A B : Type} (p : proc A) (f : A -> proc B) :
  mail_blind p -> (forall a, mail_blind (f a)) -> mail_blind (bind p f).
Proof.
  intros Hp Hf w1 w2 E. rewrite !run_bind. destruct (Hp w1 w2 E) as [H1 H2].
  destruct (run p w1) as [[a|e] w1'], (run p w2) as [[a'|e'] w2']; simpl in H1, H2;
    try discriminate H1; injection H1 as <-; [apply Hf; exact H2|split; [reflexivity|exact H2]].
Qed.

Lemma blind_try_catch {A : Type} (p : proc A) (h : JS.error -> proc A) :
  mail_blind p -> (forall e, mail_blind (h e)) -> mail_blind (try_catch p h).
Proof.
  intros Hp Hh w1 w2 E. rewrite !run_try_catch. destruct (Hp w1 w2 E) as [H1 H2].
  destruct (run p w1) as [[a|e] w1'], (run p w2) as [[a'|e'] w2']; simpl in H1, H2;
    try discriminate H1; injection H1 as <-; [split; [reflexivity|exact H2]|apply Hh; exact H2].
Qed.

Lemma blind_call (r : request) : mail_blind (call r).
Proof.
  intros [an1 s1 se1 ob1 ck1 tk1 ed1 co1] [an2 s2 se2 ob2 ck2 tk2 ed2 co2] E.
  unfold same_store in *. simpl in E. destruct E as (<- & <- & <- & <- & <-).
  destruct an1 as [|a an1]; simpl; repeat split.
Qed.

Lemma blind_now : mail_blind now.
Proof.
  intros [an1 s1 se1 ob1 ck1 tk1 ed1 co1] [an2 s2 se2 ob2 ck2 tk2 ed2 co2] E.
  unfold same_store in *. simpl in E. destruct E as (<- & <- & <- & <- & <-).
  simpl; repeat split.
Qed.

Lemma blind_console (l : console_line) : mail_blind (Do (Console l) Return).
Proof.
  intros [an1 s1 se1 ob1 ck1 tk1 ed1 co1] [an2 s2 se2 ob2 ck2 tk2 ed2 co2] E.
  unfold same_store in *. simpl in E. destruct E as (<- & <- & <- & <- & <-).
  simpl; repeat split.
Qed.

Lemma inert_blind (p : proc unit) : inert p -> mail_blind p.
Proof.
  intros H w1 w2 E. destruct (H w1) as [R1 S1], (H w2) as [R2 S2].
  split; [congruence|]. unfold same_store in *.
  destruct S1 as (-> & -> & -> & -> & ->), S2 as (-> & -> & -> & -> & ->). exact E.
Qed.

(** The e-mail of [managePartners], its failure caught and logged. *)
Lemma mail_step_inert (m : email) (l1 l2 : console_line) (l3 : JS.error -> console_line) :
  inert
    (try_catch
       (bind (Do (Console l1) Return) (fun _ =>
          bind (Do (SendEmail m) Return) (fun rejected =>
            match rejected with
            | Some e => Throw e
            | None => Do (Console l2) Return
            end)))
       (fun emailError => Do (Console (l3 emailError)) Return)).
Proof.
  intros [an s se ob ck tk ed co]. cbn [try_catch bind run perform].
  destruct (se m) as [e|]; cbn [try_catch bind run perform fst snd]; repeat split.
Qed.

(** The parts of a run on which the e-mail service has no influence. *)
Ltac blind :=
  cbv beta delta [mbind proc_bind];
  repeat first
    [ apply blind_return | apply blind_throw
    | apply blind_call | apply blind_now | apply blind_console
    | apply inert_blind; refine (mail_step_inert _ _ _ (fun e => _))
    | apply blind_bind; [|intros ?]
    | apply blind_try_catch; [|intros ?]
    | match goal with
      | |- mail_blind (if ?c then _ else _) => destruct c
      | |- mail_blind (match ?x with _ => _ end) => destruct x
      end ].

Lemma managePartners_mail_blind (action partnerId : value) (data : members) :
  mail_blind (Admin.managePartners action partnerId data).
Proof. unfold Admin.managePartners, Admin.prepare. blind. Qed.

(** X13. The e-mail service has no say in what [managePartners] returns or
    throws, nor in what it asks the store. *)
Theorem managePartners_mail_is_invisible (action partnerId : value) (data : members)
    (w : world) (f : email -> option JS.error) :
  result_of (Admin.managePartners action partnerId data) (with_sendEmail f w) =
    result_of (Admin.managePartners action partnerId data) w /\
  asked (Admin.managePartners action partnerId data) (with_sendEmail f w) =
    asked (Admin.managePartners action partnerId data) w.
Proof.
  destruct (managePartners_mail_blind action partnerId data (with_sendEmail f w) w)
    as [H1 (_ & H2 & _)]; [destruct w; repeat split|].
  unfold result_of, asked, world_after. rewrite H2. split; [exact H1|].
  destruct w; reflexivity.
Qed.

(** X14. Approving a partner that is not yet approved: the row is read,
    then written with the status [approved] and the two clock readings,
    the row the store sends back is returned with the status before and
    after, and the approval e-mail goes to the partner's address. *)
Theorem managePartners_approve (partnerId : value) (data : members) (w : world)
    (partner updated : value) (c1 c2 : option float) (rest : list reply) :
  truthy partnerId = true ->
  answers w = Reply partner None c1 :: Reply updated None c2 :: rest ->
  truthy partner = true ->
  truthy updated = true ->
  Admin.is_text (get partner "status") "approved" = false ->
  result_of (Admin.managePartners (Str "approve") partnerId data) w =
    Returned (Obj [("message", Str "Partner approve successful");
                   ("partner", updated);
                   ("previousStatus", get partner "status");
                   ("newStatus", get updated "status")]) /\
  asked (Admin.managePartners (Str "approve") partnerId data) w =
    [Admin.fetch_partner partnerId;
     Admin.update_partner partnerId
       [("status", Str "approved");
        ("approved_at", Str (iso (clock w (ticks w))));
        ("updated_at", Str (iso (clock w (S (ticks w)))))]] /\
  mailed (Admin.managePartners (Str "approve") partnerId data) w =
    delivered w (approval_email partner).
Proof.
  intros Hid Ha Hp Hu Hst. destruct w as [an s se ob ck tk ed co]. cbn [answers] in Ha.
  subst an. unfold Admin.managePartners, Admin.prepare, delivered, approval_email.
  go with rewrite ?Hid, ?Hp, ?Hu, ?Hst.
  cbn [sendEmail]. destruct (se _); go; requests; repeat split.
Qed.

Lemma managePartners_approve_witness :
  result_of (Admin.managePartners (Str "approve") (Str "p-1") [])
    (example_world [Reply (example_partner "pending") None None;
                    Reply (example_partner "approved") None None]) =
    Returned (Obj [("message", Str "Partner approve successful");
                   ("partner", example_partner "approved");
                   ("previousStatus", Str "pending");
                   ("newStatus", Str "approved")]) /\
  mailed (Admin.managePartners (Str "approve") (Str "p-1") [])
    (example_world [Reply (example_partner "pending") None None;
                    Reply (example_partner "approved") None None]) =
    [approval_email (example_partner "pending")].
Proof.
  pose proof (managePartners_approve (Str "p-1") []
                (example_world [Reply (example_partner "pending") None None;
                                Reply (example_partner "approved") None None])
                (example_partner "pending") (example_partner "approved") None None []
                eq_refl eq_refl eq_refl eq_refl eq_refl) as H.
  exact (conj (proj1 H) (proj2 (proj2 H))).
Defined.

(** X15. Rejecting a partner without a reason: the store is given the reason
    [Application rejected], the e-mail the reason as it came. *)
Theorem managePartners_reject_without_reason (partnerId : value) (data : members)
    (w : world) (partner updated : value) (c1 c2 : option float) (rest : list reply) :
  truthy partnerId = true ->
  answers w = Reply partner None c1 :: Reply updated None c2 :: rest ->
  truthy partner = true ->
  truthy updated = true ->
  Admin.is_text (get partner "status") "rejected" = false ->
  truthy (get (Obj data) "reason") = false ->
  asked (Admin.managePartners (Str "reject") partnerId data) w =
    [Admin.fetch_partner partnerId;
     Admin.update_partner partnerId
       [("status", Str "rejected");
        ("rejected_at", Str (iso (clock w (ticks w))));
        ("rejection_reason", Str "Application rejected");
        ("updated_at", Str (iso (clock w (S (ticks w)))))]] /\
  mailed (Admin.managePartners (Str "reject") partnerId data) w =
    delivered w (rejection_email partner (get (Obj data) "reason")).
Proof.
  intros Hid Ha Hp Hu Hst Hr. destruct w as [an s se ob ck tk ed co]. cbn [answers] in Ha.
  subst an. unfold Admin.managePartners, Admin.prepare, delivered, rejection_email, or_else.
  go with rewrite ?Hid, ?Hp, ?Hu, ?Hst, ?Hr.
  cbn [sendEmail]. destruct (se _); go; requests; repeat split.
Qed.

Lemma managePartners_reject_without_reason_witness :
  asked (Admin.managePartners (Str "reject") (Str "p-1") [])
    (example_world [Reply (example_partner "pending") None None;
                    Reply (example_partner "rejected") None None]) =
    [Admin.fetch_partner (Str "p-1");
     Admin.update_partner (Str "p-1")
       [("status", Str "rejected");
        ("rejected_at", Str "2025-01-01T00:00:00.000Z");
        ("rejection_reason", Str "Application rejected");
        ("updated_at", Str "2025-01-01T00:00:00.000Z")]] /\
  mailed (Admin.managePartners (Str "reject") (Str "p-1") [])
    (example_world [Reply (example_partner "pending") None None;
                    Reply (example_partner "rejected") None None]) =
    [rejection_email (example_partner "pending") Undefined].
Proof.
  exact (managePartners_reject_without_reason (Str "p-1") []
           (example_world [Reply (example_partner "pending") None None;
                           Reply (example_partner "rejected") None None])
           (example_partner "pending") (example_partner "rejected") None None []
           eq_refl eq_refl eq_refl eq_refl eq_refl eq_refl).
Defined.

End Partners.

Section PartnersHandler.
Import Std Node Terms Controller.

(** X16. An action that is none of the six is answered by the handler with
    status 400 and [Invalid action]; the service is not called, the store
    not asked. *)
Theorem managePartners_handler_invalid_action (req : http_request) (w : world) :
  Admin.is_valid_action (get (Obj (params req)) "action") = false ->
  result_of (Controller.managePartners req) w =
    Returned (Response 400
      (Obj [("error", Str "Invalid action");
            ("message",
             Str "Action must be one of: approve, reject, suspend, activate, update_commission, update")])) /\
  asked (Controller.managePartners req) w = [].
Proof.
  intros H. destruct w as [an s se ob ck tk ed co]. unfold Controller.managePartners.
  go with rewrite ?H. requests. split; reflexivity.
Qed.

Lemma managePartners_handler_invalid_action_witness :
  asked (Controller.managePartners
           (HttpRequest [("action", Str "promote"); ("partnerId", Str "p-1")] [] [] Null))
    (example_world []) = [].
Proof.
  exact (proj2 (managePartners_handler_invalid_action
                  (HttpRequest [("action", Str "promote"); ("partnerId", Str "p-1")] [] []
                     Null)
                  (example_world []) eq_refl)).
Defined.

(** X17. When the partner cannot be read, the handler answers 400 with
    [Partner with ID <id> not found] and [Failed to <action> partner]. *)
Theorem managePartners_handler_unread (req : http_request) (w : world)
    (a : reply) (rest : list reply) :
  Admin.is_valid_action (get (Obj (params req)) "action") = true ->
  truthy (get (Obj (params req)) "partnerId") = true ->
  answers w = a :: rest ->
  found a = false ->
  result_of (Controller.managePartners req) w =
    Returned (Response 400
      (Obj [("error",
             Str ("Partner with ID " +:+ to_string (get (Obj (params req)) "partnerId")
                  +:+ " not found"));
            ("details",
             Str ("Failed to " +:+ to_string (get (Obj (params req)) "action")
                  +:+ " partner"))])).
Proof.
  intros Hv Hid Ha Hf. destruct w as [an s se ob ck tk ed co]. cbn [answers] in Ha. subst an.
  unfold Controller.managePartners, Admin.managePartners.
  destruct (not_found_inv a Hf) as [(d & e & c & ->)|(d & c & -> & Hd)];
    (go with rewrite ?Hid, ?Hv, ?Hd); reflexivity.
Qed.

Lemma managePartners_handler_unread_witness :
  result_of (Controller.managePartners
               (HttpRequest [("action", Str "suspend"); ("partnerId", Str "p-9")] [] [] Null))
    (example_world [Reply Null (Some store_down) None]) =
    Returned (Response 400
      (Obj [("error", Str "Partner with ID p-9 not found");
            ("details", Str "Failed to suspend partner")])).
Proof.
  exact (managePartners_handler_unread
           (HttpRequest [("action", Str "suspend"); ("partnerId", Str "p-9")] [] [] Null)
           (example_world [Reply Null (Some store_down) None])
           (Reply Null (Some store_down) None) [] eq_refl eq_refl eq_refl eq_refl).
Defined.

End PartnersHandler.

Section Users.
Import Std Node Terms Controller.

(** X18. [manageUsers] never reports a failure: whatever the action, the
    user and the store's answer, it returns [User <action> successful].
    It makes one request at most, and that request only updates the user
    of that id in the table [users]. *)
Theorem manageUsers_always_reports_success (action userId : value) (data : members)
    (w : world) :
  result_of (Admin.manageUsers action userId data) w =
    Returned (Obj [("message", Str ("User " +:+ to_string action +:+ " successful"))]) /\
  (length (asked (Admin.manageUsers action userId data) w) <= 1)%nat /\
  Forall (is_user_update userId) (asked (Admin.manageUsers action userId data) w).
Proof.
  destruct w as [an s se ob ck tk ed co]. unfold Admin.manageUsers.
  repeat (go; branch); go; requests.
  all: split; [reflexivity|split; [simpl; lia|]].
  all: repeat constructor; eexists; reflexivity.
Qed.

(** X19. An action [manageUsers] does not know is answered by the handler
    with status 200 and [User <action> successful], the store not having
    been asked anything. *)
Theorem manageUsers_handler_unknown_action (req : http_request) (w : world) :
  is_user_action (get (Obj (params req)) "action") = false ->
  result_of (Controller.manageUsers req) w =
    Returned (Response 200
      (Obj [("message",
             Str ("User " +:+ to_string (get (Obj (params req)) "action")
                  +:+ " successful"))])) /\
  asked (Controller.manageUsers req) w = [].
Proof.
  unfold is_user_action. cbn [existsb]. intros H.
  repeat (apply orb_false_iff in H as [? H]).
  destruct w as [an s se ob ck tk ed co]. unfold Controller.manageUsers, Admin.manageUsers.
  go with rewrite ?H0, ?H1, ?H2, ?H3. requests. split; reflexivity.
Qed.

Lemma manageUsers_handler_unknown_action_witness :
  result_of (Controller.manageUsers
               (HttpRequest [("action", Str "promote"); ("userId", Str "u-1")] [] [] Null))
    (example_world []) =
    Returned (Response 200 (Obj [("message", Str "User promote successful")])) /\
  asked (Controller.manageUsers
           (HttpRequest [("action", Str "promote"); ("userId", Str "u-1")] [] [] Null))
    (example_world []) = [].
Proof.
  exact (manageUsers_handler_unknown_action
           (HttpRequest [("action", Str "promote"); ("userId", Str "u-1")] [] [] Null)
           (example_world []) eq_refl).
Defined.

End Users.

Section Refunds.
Import Std Node Terms Controller.

(** X20. A refund request that cannot be read makes [processRefundRequest]
    throw [Refund request not found]: nothing is credited, written or
    mailed. *)
Theorem processRefundRequest_not_found (refundId action adminId : value) (w : world)
    (a : reply) (rest : list reply) :
  answers w = a :: rest ->
  found a = false ->
  result_of (Admin.processRefundRequest refundId action adminId) w =
    Thrown (JS.Error "Refund request not found") /\
  asked (Admin.processRefundRequest refundId action adminId) w =
    [Admin.fetch_refund refundId] /\
  mailed (Admin.processRefundRequest refundId action adminId) w = [].
Proof.
  intros Ha Hf. destruct w as [an s se ob ck tk ed co]. cbn [answers] in Ha. subst an.
  unfold Admin.processRefundRequest.
  destruct (not_found_inv a Hf) as [(d & e & c & ->)|(d & c & -> & Hd)];
    (go with rewrite ?Hd); requests; repeat split.
Qed.

Lemma processRefundRequest_not_found_witness :
  result_of (Admin.processRefundRequest (Str "r-1") (Str "approve") (Str "admin-1"))
    (example_world [Reply Null (Some store_down) None]) =
    Thrown (JS.Error "Refund request not found").
Proof.
  exact (proj1 (processRefundRequest_not_found (Str "r-1") (Str "approve") (Str "admin-1")
                  (example_world [Reply Null (Some store_down) None])
                  (Reply Null (Some store_down) None) [] eq_refl eq_refl)).
Defined.

(** X21. Approving a refund request that was read: whatever its status and
    whatever the store answers next, the wallet is credited with the
    amount and then the request is marked [approved]; the e-mail comes
    last, and its failure is the failure of the whole. *)
Theorem processRefundRequest_approve (refundId adminId : value) (w : world)
    (a : reply) (rest : list reply) :
  answers w = a :: rest ->
  found a = true ->
  asked (Admin.processRefundRequest refundId (Str "approve") adminId) w =
    [Admin.fetch_refund refundId;
     Admin.add_to_wallet (data a);
     Admin.settle_refund refundId "approved" adminId (clock w (ticks w))] /\
  result_of (Admin.processRefundRequest refundId (Str "approve") adminId) w =
    after_mail w (truthy (get (data a) "users"))
      (Admin.refund_email (data a) "Refund Approved - Elevatio" "refund-approval")
      (Obj [("message", Str "Refund approved successfully")]).
Proof.
  intros Ha Hf. destruct w as [an s se ob ck tk ed co]. cbn [answers] in Ha. subst an.
  destruct (found_inv a Hf) as (d & c & -> & Hd).
  unfold Admin.processRefundRequest, after_mail. cbn [data sendEmail].
  go with rewrite ?Hd.
  repeat (go; branch); go; requests; split; reflexivity.
Qed.

Lemma processRefundRequest_approve_witness :
  asked (Admin.processRefundRequest (Str "r-1") (Str "approve") (Str "admin-1"))
    (example_world [Reply example_refund None None]) =
    [Admin.fetch_refund (Str "r-1");
     Admin.add_to_wallet example_refund;
     Admin.settle_refund (Str "r-1") "approved" (Str "admin-1") example_instant].
Proof.
  exact (proj1 (processRefundRequest_approve (Str "r-1") (Str "admin-1")
                  (example_world [Reply example_refund None None])
                  (Reply example_refund None None) [] eq_refl eq_refl)).
Defined.

(** X22. Any action but [approve] rejects the refund request: it is marked
    [rejected], the wallet is not credited, and the answer is [Refund
    <action>d successfully]. *)
Theorem processRefundRequest_other_action_rejects (refundId action adminId : value)
    (w : world) (a : reply) (rest : list reply) :
  Admin.is_text action "approve" = false ->
  answers w = a :: rest ->
  found a = true ->
  asked (Admin.processRefundRequest refundId action adminId) w =
    [Admin.fetch_refund refundId;
     Admin.settle_refund refundId "rejected" adminId (clock w (ticks w))] /\
  result_of (Admin.processRefundRequest refundId action adminId) w =
    after_mail w (truthy (get (data a) "users"))
      (Admin.refund_email (data a) "Refund Request Update - Elevatio" "refund-rejection")
      (Obj [("message", Str ("Refund " +:+ to_string action +:+ "d successfully"))]).
Proof.
  intros Hact Ha Hf. destruct w as [an s se ob ck tk ed co]. cbn [answers] in Ha. subst an.
  destruct (found_inv a Hf) as (d & c & -> & Hd).
  unfold Admin.processRefundRequest, after_mail. cbn [data sendEmail].
  go with rewrite ?Hd, ?Hact.
  repeat (go; branch); go; requests; split; reflexivity.
Qed.

Lemma processRefundRequest_other_action_rejects_witness :
  asked (Admin.processRefundRequest (Str "r-1") (Str "aprove") (Str "admin-1"))
    (example_world [Reply example_refund None None]) =
    [Admin.fetch_refund (Str "r-1");
     Admin.settle_refund (Str "r-1") "rejected" (Str "admin-1") example_instant] /\
  result_of (Admin.processRefundRequest (Str "r-1") (Str "aprove") (Str "admin-1"))
    (example_world [Reply example_refund None None]) =
    Returned (Obj [("message", Str "Refund aproved successfully")]).
Proof.
  exact (processRefundRequest_other_action_rejects (Str "r-1") (Str "aprove") (Str "admin-1")
           (example_world [Reply example_refund None None])
           (Reply example_refund None None) [] eq_refl eq_refl eq_refl).
Defined.

(** X23. When the e-mail about an approved refund fails, the handler answers
    400 with the e-mail's error, although the wallet was credited and the
    request marked [approved]. *)
Theorem processRefund_mail_failure (req : http_request) (w : world)
    (a : reply) (rest : list reply) (e : JS.error) :
  truthy (user req) = true ->
  get (Obj (params req)) "action" = Str "approve" ->
  answers w = a :: rest ->
  found a = true ->
  truthy (get (data a) "users") = true ->
  sendEmail w (Admin.refund_email (data a) "Refund Approved - Elevatio" "refund-approval")
    = Some e ->
  result_of (Controller.processRefund req) w =
    Returned (Response 400 (Obj [("error", Str (JS.message e))])) /\
  asked (Controller.processRefund req) w =
    [Admin.fetch_refund (get (Obj (params req)) "refundId");
     Admin.add_to_wallet (data a);
     Admin.settle_refund (get (Obj (params req)) "refundId") "approved"
       (get (user req) "id") (clock w (ticks w))].
Proof.
  intros Hu Hact Ha Hf Hus Hm. destruct w as [an s se ob ck tk ed co].
  cbn [answers] in Ha. subst an. cbn [sendEmail] in Hm.
  destruct (found_inv a Hf) as (d & c & -> & Hd). cbn [data] in *.
  unfold Controller.processRefund, Admin.processRefundRequest.
  destruct (user req) eqn:Eu; try discriminate Hu;
    repeat ((go with rewrite ?Hact, ?Hd, ?Hus, ?Hm); branch);
    (go with rewrite ?Hact, ?Hd, ?Hus, ?Hm); requests; split; reflexivity.
Qed.

Lemma processRefund_mail_failure_witness :
  result_of (Controller.processRefund
               (HttpRequest [("refundId", Str "r-1"); ("action", Str "approve")] [] []
                  (Obj [("id", Str "admin-1")])))
    (world_without_mail [Reply example_refund None None]) =
    Returned (Response 400 (Obj [("error", Str "SMTP connection refused")])).
Proof.
  exact (proj1 (processRefund_mail_failure
                  (HttpRequest [("refundId", Str "r-1"); ("action", Str "approve")] [] []
                     (Obj [("id", Str "admin-1")]))
                  (world_without_mail [Reply example_refund None None])
                  (Reply example_refund None None) [] mail_down
                  eq_refl eq_refl eq_refl eq_refl eq_refl eq_refl)).
Defined.

End Refunds.

Section Bookings.
Import Std Node Terms Controller.

(** X24. When the store answers the reading of a booking with an error, the
    handler answers 404 [Booking not found] if the error's code is
    [PGRST116] or its message contains [not found], and 400 with the
    message otherwise. *)
Theorem getBookingDetails_handler_store_error (req : http_request) (w : world)
    (d : value) (e : pg_error) (c : option float) (rest : list reply) :
  truthy (get (Obj (params req)) "bookingId") = true ->
  answers w = Reply d (Some e) c :: rest ->
  result_of (Controller.getBookingDetails req) w =
    Returned
      (if (String.eqb (code e) "PGRST116" || includes "not found" (pg_message e))%bool
       then Response 404 (Obj [("error", Str "Booking not found");
                               ("timestamp", Str (iso (clock w (ticks w))))])
       else Response 400 (Obj [("error", Str (pg_message e));
                               ("timestamp", Str (iso (clock w (ticks w))))])).
Proof.
  intros Hid Ha. destruct w as [an s se ob ck tk ed co]. cbn [answers] in Ha. subst an.
  unfold Controller.getBookingDetails, Admin.getBookingDetails.
  go with rewrite ?Hid.
  destruct (String.eqb (code e) "PGRST116"); go.
  - reflexivity.
  - destruct (includes "not found" (pg_message e)); go; reflexivity.
Qed.

Lemma getBookingDetails_handler_store_error_witness :
  result_of (Controller.getBookingDetails (HttpRequest [("bookingId", Str "b-1")] [] [] Null))
    (example_world [Reply Null (Some (PgError "PGRST116" "0 rows")) None]) =
    Returned (Response 404 (Obj [("error", Str "Booking not found");
                                 ("timestamp", Str "2025-01-01T00:00:00.000Z")])).
Proof.
  exact (getBookingDetails_handler_store_error
           (HttpRequest [("bookingId", Str "b-1")] [] [] Null)
           (example_world [Reply Null (Some (PgError "PGRST116" "0 rows")) None])
           Null (PgError "PGRST116" "0 rows") None [] eq_refl eq_refl).
Defined.

End Bookings.

Section PromoCodes.
Import Std Node Terms Controller.

(** X25. An action that is none of [create], [update], [activate] and
    [deactivate] is answered by the handler with status 400 and [Invalid
    action]; the store is not asked. *)
Theorem managePromoCodes_handler_invalid_action (req : http_request) (w : world) :
  existsb (Admin.is_text (get (Obj (params req)) "action"))
    ["create"; "update"; "activate"; "deactivate"] = false ->
  result_of (Controller.managePromoCodes req) w =
    Returned (Response 400 (Obj [("error", Str "Invalid action")])) /\
  asked (Controller.managePromoCodes req) w = [].
Proof.
  cbn [existsb]. intros H. repeat (apply orb_false_iff in H as [? H]).
  destruct w as [an s se ob ck tk ed co]. unfold Controller.managePromoCodes.
  go with rewrite ?H0, ?H1, ?H2, ?H3. requests. split; reflexivity.
Qed.

Lemma managePromoCodes_handler_invalid_action_witness :
  result_of (Controller.managePromoCodes (HttpRequest [("action", Str "delete")] [] [] Null))
    (example_world []) =
    Returned (Response 400 (Obj [("error", Str "Invalid action")])).
Proof.
  exact (proj1 (managePromoCodes_handler_invalid_action
                  (HttpRequest [("action", Str "delete")] [] [] Null)
                  (example_world []) eq_refl)).
Defined.

(** X26. Switching a promo code on or off is always answered with status 200
    and a message of success, whatever the store answers and whether or
    not the query names a promo code; without one the request asks for the
    code whose id is [null]. *)
Theorem managePromoCodes_handler_switch (on : bool) (req : http_request) (w : world) :
  get (Obj (params req)) "action" = Str (if on then "activate" else "deactivate") ->
  result_of (Controller.managePromoCodes req) w =
    Returned (Response 200
      (Obj [("message",
             Str (if on then "Promo code activated successfully"
                  else "Promo code deactivated successfully"))])) /\
  asked (Controller.managePromoCodes req) w =
    [Request "promo_codes"
       (Update [("status", Str (if on then "active" else "inactive"))] None)
       [Eq "id" (or_null (get (Obj (query req)) "promoId"))] None None false].
Proof.
  intros Hact. destruct w as [an s se ob ck tk ed co].
  unfold Controller.managePromoCodes, Admin.managePromoCodes, or_null.
  destruct on; (go with rewrite ?Hact); repeat (go; branch); go; requests;
    split; reflexivity.
Qed.

Lemma managePromoCodes_handler_switch_witness :
  result_of (Controller.managePromoCodes
               (HttpRequest [("action", Str "deactivate")] [] [] Null))
    (example_world [Reply Null (Some store_down) None]) =
    Returned (Response 200 (Obj [("message", Str "Promo code deactivated successfully")])) /\
  asked (Controller.managePromoCodes (HttpRequest [("action", Str "deactivate")] [] [] Null))
    (example_world [Reply Null (Some store_down) None]) =
    [Request "promo_codes" (Update [("status", Str "inactive")] None) [Eq "id" Null]
       None None false].
Proof.
  exact (managePromoCodes_handler_switch false
           (HttpRequest [("action", Str "deactivate")] [] [] Null)
           (example_world [Reply Null (Some store_down) None]) eq_refl).
Defined.

End PromoCodes.
